(** * Scribe: result envelope, command validation, entities and the
      transcription / audio-processing services

    A shallow embedding of [src/core] of the scribe repository:
    - [models/app_result.py]   -> module [AppResult]
    - [models/commands.py]     -> modules [TranscribeAudioCommand],
                                  [GenerateSummaryCommand], [ProcessAudioFileCommand]
    - [models/transcription.py], [models/summary.py]
                               -> modules [Transcription], [Summary]
    - [interfaces/*.py]        -> classes [ITranscriptionProvider],
                                  [ISummarizationProvider]
    - [services/*.py]          -> modules [TranscriptionService],
                                  [AudioProcessingService]
    and of [src/infrastructure]:
    - [output_formatter.py]    -> module [OutputFormatter] (the texts it
                                  builds; writing them to disk is left out)
    - [whisper_provider.py]    -> module [WhisperTranscriptionProvider]
    - [gemini_provider.py]     -> module [GeminiSummarizationProvider]
    The speech engine, the disk and the remote API are parameters of the
    two providers: records of functions that say what each outside call
    answers or raises.

    Python values are modelled after their annotations: [str] is [string]
    (a character is read as the code point 0..255 it denotes), [Optional[X]]
    is [option X], [List[str]] is [list string], [float] is the primitive
    binary64 [float].  A call that may raise returns an [Outcome]; code that
    talks to a provider runs in a small state monad whose state holds the
    service object and the list of provider calls made so far. *)

From Stdlib Require Import String Ascii List Bool Arith NArith Floats Lia.
From Stdlib Require Import DecimalString.
Import ListNotations.
Local Open Scope string_scope.

(* ===================================================================== *)
(** ** Python strings and truthiness *)

Module PyStr.

(** [str.isspace] on one character, for code points below 256: the ASCII
    table of CPython (TAB..CR, FS..US, SPACE) and the two Latin-1
    characters NEL (0x85) and NBSP (0xA0). *)
Definition isspace (c : ascii) : bool :=
  let n := N_of_ascii c in
  ((9 <=? n) && (n <=? 13) || (28 <=? n) && (n <=? 32)
   || (n =? 133) || (n =? 160))%N.

(** [bool(s)]: a string is truthy exactly when it is not empty. *)
Definition truthy (s : string) : bool :=
  match s with
  | EmptyString => false
  | String _ _ => true
  end.

Fixpoint lstrip (s : string) : string :=
  match s with
  | EmptyString => EmptyString
  | String c s' => if isspace c then lstrip s' else s
  end.

Fixpoint rstrip (s : string) : string :=
  match s with
  | EmptyString => EmptyString
  | String c s' =>
      match rstrip s' with
      | EmptyString => if isspace c then EmptyString else String c EmptyString
      | r => String c r
      end
  end.

(** [s.strip()] with no argument. *)
Definition strip (s : string) : string := rstrip (lstrip s).

(** Every character of [s] is whitespace (vacuously so for [""]). *)
Fixpoint all_space (s : string) : bool :=
  match s with
  | EmptyString => true
  | String c s' => isspace c && all_space s'
  end.

End PyStr.

(** [bool(l)] for a list. *)
Definition list_truthy {A : Type} (l : list A) : bool :=
  match l with
  | [] => false
  | _ :: _ => true
  end.

(** [x or []] for an optional list. *)
Definition or_empty {A : Type} (x : option (list A)) : list A :=
  match x with
  | Some (a :: l) => a :: l
  | Some [] => []
  | None => []
  end.

(** [str(x)] as an f-string field prints it, for an [Optional[str]]. *)
Definition format_field (x : option string) : string :=
  match x with
  | Some s => s
  | None => "None"
  end.

Definition option_string_eqb (x y : option string) : bool :=
  match x, y with
  | Some a, Some b => String.eqb a b
  | None, None => true
  | _, _ => false
  end.

(** [x in l] on a list of optional strings. *)
Definition py_in (x : option string) (l : list (option string)) : bool :=
  existsb (option_string_eqb x) l.

(* ===================================================================== *)
(** ** Exceptions *)

Inductive PyExn : Type :=
| ValueError (msg : string)
| AttributeError (msg : string).

Inductive Outcome (A : Type) : Type :=
| Returned (a : A)
| Raised (e : PyExn).

Arguments Returned {A} a.
Arguments Raised {A} e.

(* ===================================================================== *)
(** ** models/app_result.py *)

Module AppResult.

Record t (T : Type) : Type := mk {
  success : bool;
  value : option T;
  message : string;
  errors : list string
}.

Arguments mk {T}.
Arguments success {T}.
Arguments value {T}.
Arguments message {T}.
Arguments errors {T}.

(** The dataclass constructor followed by [__post_init__]: the defaults
    are [value=None], [message=""], [errors=None], and a [None] error
    list becomes the empty list. *)
Definition init {T : Type} (success : bool) (value : option T)
    (message : string) (errors : option (list string)) : t T :=
  {| success := success;
     value := value;
     message := message;
     errors := match errors with
               | None => []
               | Some l => l
               end |}.

(** [AppResult.ok(value, message)] at any argument.  Python hands [value]
    on as it is, so [ok(None)] is a success that carries no value. *)
Definition ok_of {T : Type} (value : option T) (message : string) : t T :=
  init true value message None.

(** [AppResult.ok(value, message)] at an argument that is not [None]. *)
Definition ok {T : Type} (value : T) (message : string) : t T :=
  init true (Some value) message None.

Definition fail {T : Type} (message : string)
    (errors : option (list string)) : t T :=
  init false None message (Some (or_empty errors)).

Definition validation_error {T : Type} (errors : list string) : t T :=
  init false None "Validation failed" (Some errors).

(** The envelope invariant of the data model. *)
Definition invariant {T : Type} (r : t T) : Prop :=
  (success r = true -> value r <> None /\ errors r = []) /\
  (success r = false -> value r = None).

(** Envelopes that come out of one of the three static factories, [ok]
    at any argument, [None] included. *)
Inductive from_factory {T : Type} : t T -> Prop :=
| from_ok : forall (v : option T) m, from_factory (ok_of v m)
| from_fail : forall m e, from_factory (fail m e)
| from_validation_error : forall e, from_factory (validation_error e).

(** Envelopes that can be constructed at all: the factories, or a direct
    call of the constructor. *)
Inductive constructed {T : Type} : t T -> Prop :=
| by_factory : forall r, from_factory r -> constructed r
| by_init : forall s v m e, constructed (init s v m e).

End AppResult.

(* ===================================================================== *)
(** ** models/commands.py *)

Definition model_choices : list (option string) :=
  [Some "tiny"; Some "base"; Some "small"; Some "medium"; Some "large"; None].

Definition path_required : string := "Audio file path is required".

Definition invalid_model (model : option string) : string :=
  "Invalid model: " ++ format_field model
    ++ ". Must be one of: tiny, base, small, medium, large".

(** The errors the two path-bearing commands report, as one function of
    the two fields they read; [validate_path_bearing] below relates it to
    both [validate] methods. *)
Definition path_and_model_errors (audio_file_path : string)
    (model : option string) : list string :=
  ((if PyStr.truthy audio_file_path then [] else [path_required])
   ++ (if py_in model model_choices then [] else [invalid_model model]))%list.

Module TranscribeAudioCommand.

Record t : Type := mk {
  audio_file_path : string;
  model : option string
}.

Definition validate (self : t) : list string :=
  let errors := [] in
  let errors :=
    if negb (PyStr.truthy (audio_file_path self))
    then (errors ++ [path_required])%list else errors in
  let errors :=
    if negb (py_in (model self) model_choices)
    then (errors ++ [invalid_model (model self)])%list else errors in
  errors.

End TranscribeAudioCommand.

Module GenerateSummaryCommand.

Record t : Type := mk {
  text : string
}.

Definition validate (self : t) : list string :=
  let errors := [] in
  let errors :=
    if negb (PyStr.truthy (text self))
       || negb (PyStr.truthy (PyStr.strip (text self)))
    then (errors ++ ["Text is required for summarization"])%list
    else errors in
  errors.

End GenerateSummaryCommand.

Module ProcessAudioFileCommand.

Record t : Type := mk {
  audio_file_path : string;
  model : option string;
  skip_summary : bool
}.

Definition validate (self : t) : list string :=
  let errors := [] in
  let errors :=
    if negb (PyStr.truthy (audio_file_path self))
    then (errors ++ [path_required])%list else errors in
  let errors :=
    if negb (py_in (model self) model_choices)
    then (errors ++ [invalid_model (model self)])%list else errors in
  errors.

End ProcessAudioFileCommand.

(* ===================================================================== *)
(** ** models/transcription.py and models/summary.py *)

Module Transcription.

Record t : Type := mk {
  text : string;
  audio_file_path : string;
  model_used : string;
  language : option string;
  duration_seconds : option float
}.

(** The dataclass constructor followed by [__post_init__]. *)
Definition init (text audio_file_path model_used : string)
    (language : option string) (duration_seconds : option float)
    : Outcome t :=
  if negb (PyStr.truthy text)
  then Raised (ValueError "Transcription text cannot be empty")
  else if negb (PyStr.truthy audio_file_path)
  then Raised (ValueError "Audio file path cannot be empty")
  else Returned (mk text audio_file_path model_used language
                    duration_seconds).

(** A duration that is present and below zero. *)
Definition negative_duration (d : option float) : bool :=
  match d with
  | Some x => PrimFloat.ltb x PrimFloat.zero
  | None => false
  end.

End Transcription.

Module Summary.

Record t : Type := mk {
  conversation_summary : string;
  action_items : list string
}.

Definition init (conversation_summary : string)
    (action_items : option (list string)) : Outcome t :=
  if negb (PyStr.truthy conversation_summary)
  then Raised (ValueError "Conversation summary cannot be empty")
  else Returned (mk conversation_summary
                    match action_items with
                    | None => []
                    | Some l => l
                    end).

End Summary.

(* ===================================================================== *)
(** ** interfaces/ *)

(** A provider is an object with private state: a call returns the
    envelope and the provider as the call left it. *)
Class ITranscriptionProvider (P : Type) : Type := {
  transcribe : P -> string -> option string -> AppResult.t Transcription.t * P
}.

Class ISummarizationProvider (P : Type) : Type := {
  summarize : P -> string -> AppResult.t Summary.t * P
}.

(** One entry per provider call, in the order the calls are made. *)
Inductive Call : Type :=
| TranscribeCall (audio_file_path : string) (model : option string)
| SummarizeCall (text : string).

(* ===================================================================== *)
(** ** The monad of service code *)

(** The state a service method runs in: the service object (which owns
    its providers) and the log of provider calls. *)
Record Run (Svc : Type) : Type := mkRun {
  service : Svc;
  calls : list Call
}.

Arguments mkRun {Svc}.
Arguments service {Svc}.
Arguments calls {Svc}.

Definition M (Svc A : Type) : Type := Run Svc -> Outcome A * Run Svc.

Definition ret {Svc A : Type} (a : A) : M Svc A :=
  fun h => (Returned a, h).

Definition bind {Svc A B : Type} (c : M Svc A) (k : A -> M Svc B) : M Svc B :=
  fun h =>
    match c h with
    | (Returned a, h') => k a h'
    | (Raised e, h') => (Raised e, h')
    end.

Definition lift {Svc A : Type} (o : Outcome A) : M Svc A :=
  fun h => (o, h).

Declare Scope py_scope.
Delimit Scope py_scope with py.
Notation "x <- c ;; k" := (bind c (fun x => k))
  (at level 100, c at next level, right associativity) : py_scope.

(** [obj.text] on an optional transcription. *)
Definition getattr_text (obj : option Transcription.t) : Outcome string :=
  match obj with
  | Some t => Returned (Transcription.text t)
  | None => Raised (AttributeError "'NoneType' object has no attribute 'text'")
  end.

(* ===================================================================== *)
(** ** services/transcription_service.py *)

Module TranscriptionService.
Section WithProvider.

Context {TP : Type} `{ITranscriptionProvider TP}.

Record t : Type := mk {
  _transcription_provider : TP
}.

(** [self._transcription_provider.transcribe(...)], logged. *)
Definition call_transcribe (audio_file_path : string)
    (model : option string) : M t (AppResult.t Transcription.t) :=
  fun h =>
    let '(r, p) :=
      transcribe (_transcription_provider (service h)) audio_file_path model in
    (Returned r,
     mkRun (mk p) (calls h ++ [TranscribeCall audio_file_path model])%list).

Definition transcribe_audio (command : TranscribeAudioCommand.t)
    : M t (AppResult.t Transcription.t) :=
  let validation_errors := TranscribeAudioCommand.validate command in
  if list_truthy validation_errors
  then ret (AppResult.validation_error validation_errors)
  else call_transcribe (TranscribeAudioCommand.audio_file_path command)
                       (TranscribeAudioCommand.model command).

End WithProvider.
Arguments t : clear implicits.
End TranscriptionService.

(* ===================================================================== *)
(** ** services/audio_processing_service.py *)

Module AudioProcessingService.
Section WithProviders.

Context {TP SP : Type} `{ITranscriptionProvider TP}
        `{ISummarizationProvider SP}.

Record t : Type := mk {
  _transcription_provider : TP;
  _summarization_provider : SP
}.

Definition call_transcribe (audio_file_path : string)
    (model : option string) : M t (AppResult.t Transcription.t) :=
  fun h =>
    let '(r, p) :=
      transcribe (_transcription_provider (service h)) audio_file_path model in
    (Returned r,
     mkRun (mk p (_summarization_provider (service h)))
           (calls h ++ [TranscribeCall audio_file_path model])%list).

Definition call_summarize (text : string) : M t (AppResult.t Summary.t) :=
  fun h =>
    let '(r, p) := summarize (_summarization_provider (service h)) text in
    (Returned r,
     mkRun (mk (_transcription_provider (service h)) p)
           (calls h ++ [SummarizeCall text])%list).

Definition generate_summary (command : GenerateSummaryCommand.t)
    : M t (AppResult.t Summary.t) :=
  let validation_errors := GenerateSummaryCommand.validate command in
  if list_truthy validation_errors
  then ret (AppResult.validation_error validation_errors)
  else call_summarize (GenerateSummaryCommand.text command).

(** The pair in the envelope holds whatever the provider envelopes
    carried as [value], hence the two [option]s. *)
Definition process_audio_file (command : ProcessAudioFileCommand.t)
    : M t (AppResult.t (option Transcription.t * option Summary.t)) :=
  let validation_errors := ProcessAudioFileCommand.validate command in
  if list_truthy validation_errors
  then ret (AppResult.validation_error validation_errors)
  else
    (transcription_result <-
       call_transcribe (ProcessAudioFileCommand.audio_file_path command)
                       (ProcessAudioFileCommand.model command) ;;
     if negb (AppResult.success transcription_result)
     then ret (AppResult.fail
                 ("Transcription failed: "
                    ++ AppResult.message transcription_result)
                 (Some (AppResult.errors transcription_result)))
     else
       let transcription := AppResult.value transcription_result in
       if ProcessAudioFileCommand.skip_summary command
       then
         (empty_summary <-
            lift (Summary.init "Summary skipped by user" (Some [])) ;;
          ret (AppResult.ok (transcription, Some empty_summary)
                 "Transcription completed (summary skipped)"))
       else
         (text <- lift (getattr_text transcription) ;;
          summary_result <-
            generate_summary (GenerateSummaryCommand.mk text) ;;
          if negb (AppResult.success summary_result)
          then ret (AppResult.fail
                      ("Summarization failed: "
                         ++ AppResult.message summary_result)
                      (Some (AppResult.errors summary_result)))
          else ret (AppResult.ok
                      (transcription, AppResult.value summary_result)
                      "Audio processing completed successfully")))%py.

End WithProviders.
Arguments t : clear implicits.
End AudioProcessingService.

(* ===================================================================== *)
(** ** Stand-ins for the providers, as the unit tests build them *)

(** [unittest.mock.Mock] with a fixed [return_value]: it records the
    arguments of every call and always answers the same. *)
Module Mock.

Record t (R Args : Type) : Type := mk {
  return_value : R;
  call_args_list : list Args
}.

Arguments mk {R Args}.
Arguments return_value {R Args}.
Arguments call_args_list {R Args}.

Definition call {R Args : Type} (m : t R Args) (args : Args) : R * t R Args :=
  (return_value m, mk (return_value m) (call_args_list m ++ [args])%list).

Definition returning {R Args : Type} (r : R) : t R Args := mk r [].

End Mock.

Definition MockTranscriber : Type :=
  Mock.t (AppResult.t Transcription.t) (string * option string).

Definition MockSummarizer : Type :=
  Mock.t (AppResult.t Summary.t) string.

#[export] Instance MockTranscriber_provider
  : ITranscriptionProvider MockTranscriber :=
  {| transcribe := fun m audio_file_path model =>
                     Mock.call m (audio_file_path, model) |}.

#[export] Instance MockSummarizer_provider
  : ISummarizationProvider MockSummarizer :=
  {| summarize := fun m text => Mock.call m text |}.


(* ===================================================================== *)
(** ** Fixtures of tests/test_audio_processing_service.py *)

Module Fixtures.

Definition command : ProcessAudioFileCommand.t :=
  ProcessAudioFileCommand.mk "/path/to/audio.mp3" (Some "base") false.

Definition command_skip : ProcessAudioFileCommand.t :=
  ProcessAudioFileCommand.mk "/path/to/audio.mp3" (Some "base") true.

Definition command_no_path : ProcessAudioFileCommand.t :=
  ProcessAudioFileCommand.mk "" (Some "base") false.

Definition transcription : Transcription.t :=
  Transcription.mk "Test transcription text" "/path/to/audio.mp3" "base"
    None None.

(** A transcription a provider can build: its text is not empty, yet
    nothing in it is visible. *)
Definition blank_transcription : Transcription.t :=
  Transcription.mk "   " "/path/to/audio.mp3" "base" None None.

Definition summary : Summary.t :=
  Summary.mk "Test summary" ["Action 1"; "Action 2"].

Definition file_not_found : AppResult.t Transcription.t :=
  AppResult.fail "File not found" (Some ["Audio file does not exist"]).

Definition api_error : AppResult.t Summary.t :=
  AppResult.fail "API error" (Some ["Invalid API key"]).

(** [AudioProcessingService(mock_transcription_provider,
    mock_summarization_provider)] with the two return values set. *)
Definition service (tr : AppResult.t Transcription.t)
    (sr : AppResult.t Summary.t)
    : AudioProcessingService.t MockTranscriber MockSummarizer :=
  AudioProcessingService.mk (Mock.returning tr) (Mock.returning sr).

Definition transcription_service (tr : AppResult.t Transcription.t)
    : TranscriptionService.t MockTranscriber :=
  TranscriptionService.mk (Mock.returning tr).

(** Both mocks answer with success; the transcription is the blank one. *)
Definition blank_service
    : AudioProcessingService.t MockTranscriber MockSummarizer :=
  service (AppResult.ok blank_transcription "") (AppResult.ok summary "").

(** The transcription mock after its one call by the fixture command. *)
Definition called_once (tr : AppResult.t Transcription.t) : MockTranscriber :=
  Mock.mk tr [("/path/to/audio.mp3", Some "base")].

End Fixtures.

(** The path errors of a path-bearing command, on their own. *)
Definition path_errors (audio_file_path : string) : list string :=
  if PyStr.truthy audio_file_path then [] else [path_required].


(* ===================================================================== *)
(** ** More Python built-ins, for the infrastructure layer *)

Module Py.

(** The newline character. *)
Definition nl : string := String (ascii_of_nat 10) EmptyString.

(** [s * n]. *)
Fixpoint repeat (s : string) (n : nat) : string :=
  match n with
  | O => EmptyString
  | S n' => s ++ repeat s n'
  end.

(** [sep.join(l)]. *)
Fixpoint join (sep : string) (l : list string) : string :=
  match l with
  | [] => EmptyString
  | [x] => x
  | x :: rest => x ++ sep ++ join sep rest
  end.

(** [str(i)] for a natural number: decimal digits, no leading zero. *)
Definition str_of_nat (i : nat) : string :=
  NilZero.string_of_uint (Nat.to_uint i).

(** [bool(x)] for an [Optional[str]]: present and not empty. *)
Definition opt_truthy (x : option string) : bool :=
  match x with
  | Some s => PyStr.truthy s
  | None => false
  end.

(** [l.append(x)], as the list it leaves. *)
Definition append {A : Type} (l : list A) (x : A) : list A := (l ++ [x])%list.

End Py.

(* ===================================================================== *)
(** ** infrastructure/output_formatter.py *)

Module OutputFormatter.

(** [for i, item in enumerate(items, i): output.append(f"{i}. {item}")],
    returning [output] as the loop leaves it. *)
Fixpoint append_numbered (i : nat) (items : list string)
    (output : list string) : list string :=
  match items with
  | [] => output
  | item :: rest =>
      append_numbered (S i) rest
        (Py.append output (Py.str_of_nat i ++ ". " ++ item))
  end.

(** [for item in items: output.append(f"- {item}")]. *)
Fixpoint append_bulleted (items : list string) (output : list string)
    : list string :=
  match items with
  | [] => output
  | item :: rest => append_bulleted rest (Py.append output ("- " ++ item))
  end.

(** The list [output] of [format_console_output] when it reaches the
    [return]. *)
Definition console_output (transcription : Transcription.t)
    (summary : Summary.t) : list string :=
  let output := [] in
  let output := Py.append output (Py.repeat "=" 80) in
  let output := Py.append output "TRANSCRIPTION RESULTS" in
  let output := Py.append output (Py.repeat "=" 80) in
  let output :=
    Py.append output ("File: " ++ Transcription.audio_file_path transcription) in
  let output :=
    Py.append output ("Model: " ++ Transcription.model_used transcription) in
  let output :=
    if Py.opt_truthy (Transcription.language transcription)
    then Py.append output ("Language: " ++ format_field (Transcription.language transcription))
    else output in
  let output := Py.append output "" in
  let output := Py.append output "TRANSCRIPTION:" in
  let output := Py.append output (Py.repeat "-" 80) in
  let output := Py.append output (Transcription.text transcription) in
  let output := Py.append output "" in
  let output := Py.append output (Py.repeat "=" 80) in
  let output := Py.append output "SUMMARY" in
  let output := Py.append output (Py.repeat "=" 80) in
  let output := Py.append output (Summary.conversation_summary summary) in
  let output := Py.append output "" in
  let output := Py.append output "ACTION ITEMS:" in
  let output := Py.append output (Py.repeat "-" 80) in
  let output :=
    if list_truthy (Summary.action_items summary)
    then append_numbered 1 (Summary.action_items summary) output
    else Py.append output "No action items identified" in
  let output := Py.append output (Py.repeat "=" 80) in
  output.

Definition format_console_output (transcription : Transcription.t)
    (summary : Summary.t) : string :=
  Py.join Py.nl (console_output transcription summary).

(** The list [output] of [save_to_markdown] when it reaches the [with]. *)
Definition markdown_output (transcription : Transcription.t)
    (summary : Summary.t) : list string :=
  let output := [] in
  let output := Py.append output "# Transcription Results" in
  let output := Py.append output "" in
  let output := Py.append output "## Metadata" in
  let output :=
    Py.append output ("- **File:** " ++ Transcription.audio_file_path transcription) in
  let output :=
    Py.append output ("- **Model:** " ++ Transcription.model_used transcription) in
  let output :=
    if Py.opt_truthy (Transcription.language transcription)
    then Py.append output ("- **Language:** " ++ format_field (Transcription.language transcription))
    else output in
  let output := Py.append output "" in
  let output := Py.append output "## Transcription" in
  let output := Py.append output "" in
  let output := Py.append output (Transcription.text transcription) in
  let output := Py.append output "" in
  let output := Py.append output "## Summary" in
  let output := Py.append output "" in
  let output := Py.append output (Summary.conversation_summary summary) in
  let output := Py.append output "" in
  let output := Py.append output "## Action Items" in
  let output := Py.append output "" in
  let output :=
    if list_truthy (Summary.action_items summary)
    then append_bulleted (Summary.action_items summary) output
    else Py.append output "- No action items identified" in
  let output := Py.append output "" in
  output.

(** The string [save_to_markdown] hands to [f.write]. *)
Definition markdown_text (transcription : Transcription.t)
    (summary : Summary.t) : string :=
  Py.join Py.nl (markdown_output transcription summary).

(** The lines the numbering loop appends, counting from [i]. *)
Fixpoint numbered_from (i : nat) (items : list string) : list string :=
  match items with
  | [] => []
  | item :: rest =>
      (Py.str_of_nat i ++ ". " ++ item) :: numbered_from (S i) rest
  end.

(** Whether the language line is printed: [if transcription.language:]. *)
Definition language_lines (transcription : Transcription.t) : nat :=
  if Py.opt_truthy (Transcription.language transcription) then 1 else 0.

End OutputFormatter.

(* ===================================================================== *)
(** ** String methods used by the providers *)

Module PyText.

(** [s.startswith(p)]. *)
Definition startswith (p s : string) : bool := String.prefix p s.

(** [sub in s]. *)
Fixpoint contains (sub s : string) : bool :=
  match s with
  | EmptyString => String.prefix sub EmptyString
  | String _ s' => String.prefix sub s || contains sub s'
  end.

(** [s.split(sep)] for a separator that is not empty: the pieces between
    the occurrences of [sep], found from the left and not overlapping.
    [skip] counts the characters of a found separator still to pass over,
    [cur] is the piece being read. *)
Fixpoint split_from (sep : string) (skip : nat) (cur s : string)
    : list string :=
  match s with
  | EmptyString => [cur]
  | String c s' =>
      match skip with
      | S k => split_from sep k cur s'
      | O =>
          if String.prefix sep s
          then cur :: split_from sep (String.length sep - 1) EmptyString s'
          else split_from sep O (cur ++ String c EmptyString) s'
      end
  end.

Definition split (sep s : string) : list string :=
  split_from sep O EmptyString s.

(** [s.replace(old, new)] for an [old] that is not empty. *)
Fixpoint replace_from (old new : string) (skip : nat) (s : string) : string :=
  match s with
  | EmptyString => EmptyString
  | String c s' =>
      match skip with
      | S k => replace_from old new k s'
      | O =>
          if String.prefix old s
          then new ++ replace_from old new (String.length old - 1) s'
          else String c (replace_from old new O s')
      end
  end.

Definition replace (old new s : string) : string :=
  replace_from old new O s.

(** [c.lower()] for a code point below 256: A..Z and the Latin-1 capitals
    (0xC0..0xDE but the multiplication sign 0xD7) move up by 32. *)
Definition lower_char (c : ascii) : ascii :=
  let n := N_of_ascii c in
  if ((65 <=? n) && (n <=? 90)
      || (192 <=? n) && (n <=? 222) && negb (n =? 215))%N
  then ascii_of_N (n + 32)
  else c.

Fixpoint lower (s : string) : string :=
  match s with
  | EmptyString => EmptyString
  | String c s' => String (lower_char c) (lower s')
  end.

(** [s[1:]]. *)
Definition from_1 (s : string) : string :=
  match s with
  | EmptyString => EmptyString
  | String _ s' => s'
  end.

(** The double quote character, as a string. *)
Definition dquote : string := String (ascii_of_nat 34) EmptyString.

(** [str(e)] of a raised exception. *)
Definition str_of_exn (e : PyExn) : string :=
  match e with
  | ValueError msg => msg
  | AttributeError msg => msg
  end.

(** [x or default] on an optional string. *)
Definition or_else (x : option string) (default : string) : string :=
  match x with
  | Some (String c s) => String c s
  | Some EmptyString => default
  | None => default
  end.

End PyText.

(** What an [import] statement can do: bind the module, raise
    ImportError, or raise something else (whose [str] is kept). *)
Inductive Import : Type :=
| Imported
| ImportError
| ImportRaised (msg : string).

(* ===================================================================== *)
(** ** infrastructure/whisper_provider.py *)

Module WhisperTranscriptionProvider.

(** What [whisper_model.transcribe] returns, as far as the provider reads
    it: the entry "text", a string, and the entry "language" if any. *)
Record Result : Type := mkResult {
  result_text : string;
  result_language : option string
}.

Section WithEngine.

(** The loaded models are opaque. *)
Variable Model : Type.

(** The world outside the provider.  A call that raises is [inl] of the
    [str] of the exception. *)
Record Engine : Type := mkEngine {
  path_exists : string -> bool;
  import_whisper : Import;
  load_model : string -> string + Model;
  model_transcribe : Model -> string -> string + Result
}.

Variable engine : Engine.

Record t : Type := mk {
  _model_cache : list (string * Model)
}.

(** [WhisperTranscriptionProvider()]. *)
Definition init : t := mk [].

(** [self._model_cache[key]] when the key is there. *)
Fixpoint cache_get (cache : list (string * Model)) (key : string)
    : option Model :=
  match cache with
  | [] => None
  | (k, m) :: rest => if String.eqb key k then Some m else cache_get rest key
  end.

(** [self._model_cache[key] = m] for a key that is not there yet. *)
Definition cache_set (cache : list (string * Model)) (key : string)
    (m : Model) : list (string * Model) :=
  (cache ++ [(key, m)])%list.

(** The handler of the outer [try]. *)
Definition transcription_failed (e : string) : AppResult.t Transcription.t :=
  AppResult.fail ("Transcription failed: " ++ e) (Some [e]).

(** The last steps, once the model is at hand: run it, build the entity,
    wrap it. *)
Definition run_and_wrap (whisper_model : Model)
    (audio_file_path model_name : string) : AppResult.t Transcription.t :=
  match model_transcribe engine whisper_model audio_file_path with
  | inl e => transcription_failed e
  | inr result =>
      match Transcription.init (PyStr.strip (result_text result))
              audio_file_path model_name (result_language result) None with
      | Raised e => transcription_failed (PyText.str_of_exn e)
      | Returned transcription =>
          AppResult.ok transcription "Transcription completed successfully"
      end
  end.

Definition transcribe (self : t) (audio_file_path : string)
    (model : option string) : AppResult.t Transcription.t * t :=
  if negb (path_exists engine audio_file_path)
  then (AppResult.fail ("Audio file not found: " ++ audio_file_path) None,
        self)
  else
    match import_whisper engine with
    | ImportError =>
        (AppResult.fail
           "Whisper is not installed. Please install with: pip install openai-whisper"
           (Some ["Missing dependency: openai-whisper"]),
         self)
    | ImportRaised e => (transcription_failed e, self)
    | Imported =>
        let model_name := PyText.or_else model "base" in
        match cache_get (_model_cache self) model_name with
        | Some whisper_model =>
            (run_and_wrap whisper_model audio_file_path model_name, self)
        | None =>
            match load_model engine model_name with
            | inl e =>
                (AppResult.fail
                   ("Failed to load Whisper model '" ++ model_name ++ "': "
                      ++ e)
                   (Some [e]),
                 self)
            | inr whisper_model =>
                (run_and_wrap whisper_model audio_file_path model_name,
                 mk (cache_set (_model_cache self) model_name whisper_model))
            end
        end
    end.

End WithEngine.

Arguments mkEngine {Model}.
Arguments path_exists {Model}.
Arguments import_whisper {Model}.
Arguments load_model {Model}.
Arguments model_transcribe {Model}.
Arguments mk {Model}.
Arguments _model_cache {Model}.
Arguments init {Model}.
Arguments cache_get {Model}.
Arguments cache_set {Model}.
Arguments run_and_wrap {Model}.
Arguments transcribe {Model}.

(** The provider, in a given world, as an [ITranscriptionProvider]. *)
Definition provider {Model : Type} (engine : Engine Model)
    : ITranscriptionProvider (t Model) :=
  Build_ITranscriptionProvider (t Model) (transcribe engine).

End WhisperTranscriptionProvider.

(* ===================================================================== *)
(** ** infrastructure/gemini_provider.py *)

Module GeminiSummarizationProvider.

(** The prompt of [summarize]: the f-string, line by line. *)
Definition prompt (text : string) : string :=
  Py.join Py.nl
    [""; "Analyze the following transcription and provide:";
     "1. A concise summary of the conversation (2-3 paragraphs)";
     "2. A list of action items (specific tasks mentioned or implied)";
     "";
     "Format your response exactly as follows:";
     "SUMMARY:";
     "[Your summary here]";
     "";
     "ACTION ITEMS:";
     "- [Action item 1]";
     "- [Action item 2]";
     "- [etc.]";
     "";
     "If there are no action items, write " ++ PyText.dquote
       ++ "- None identified" ++ PyText.dquote;
     "";
     "Transcription:";
     text;
     ""].

(** The loop over the lines of the action part, returning [action_items]
    as the loop leaves it. *)
Fixpoint collect_items (lines : list string) (action_items : list string)
    : list string :=
  match lines with
  | [] => action_items
  | line :: rest =>
      let line := PyStr.strip line in
      if PyText.startswith "-" line || PyText.startswith "*" line
      then
        let item := PyStr.strip (PyText.from_1 line) in
        if PyStr.truthy item
           && negb (String.eqb (PyText.lower item) "none identified")
        then collect_items rest (Py.append action_items item)
        else collect_items rest action_items
      else collect_items rest action_items
  end.

(** The part of [summarize] that reads the response text: the pair
    [(summary_text, action_items)] at the end of the [if]/[else], or the
    [str] of the IndexError that [parts[0]] or [parts[1]] raises. *)
Definition extract (response_text : string) : string + string * list string :=
  let summary_text := "" in
  let action_items := [] in
  if PyText.contains "SUMMARY:" response_text
     && PyText.contains "ACTION ITEMS:" response_text
  then
    let parts := PyText.split "ACTION ITEMS:" response_text in
    match parts with
    | part0 :: part1 :: _ =>
        let summary_part :=
          PyStr.strip (PyText.replace "SUMMARY:" "" part0) in
        let action_part := PyStr.strip part1 in
        let summary_text := summary_part in
        inr (summary_text,
             collect_items (PyText.split Py.nl action_part) action_items)
    | _ => inl "list index out of range"
    end
  else inr (response_text, action_items).

Section WithClient.

(** The client object is opaque. *)
Variable Client : Type.

(** The world outside the provider.  A call that raises is [inl] of the
    [str] of the exception.  A response is [None], or an object whose
    [text] is [None] or a string. *)
Record Api : Type := mkApi {
  import_genai : Import;
  make_client : string -> string + Client;
  generate_content : Client -> string -> string -> string + option (option string)
}.

Variable api : Api.

Record t : Type := mk {
  _api_key : option string;
  _client : option Client
}.

(** [GeminiSummarizationProvider(api_key)], where [getenv] is what
    [os.getenv("GEMINI_API_KEY")] answers. *)
Definition init (api_key getenv : option string) : t :=
  mk (if Py.opt_truthy api_key then api_key else getenv) None.

(** [AppResult.ok(None)]: a success whose value is [None]. *)
Definition ok_none {T : Type} : AppResult.t T :=
  AppResult.ok_of None "".

(** [_initialize_model]: the envelope it returns, or the [str] of the
    exception that escapes it, and the provider as the call left it. *)
Definition _initialize_model {T : Type} (self : t)
    : (string + AppResult.t T) * t :=
  match _client self with
  | Some _ => (inr ok_none, self)
  | None =>
      if negb (Py.opt_truthy (_api_key self))
      then (inr (AppResult.fail
                   "Gemini API key not provided. Set GEMINI_API_KEY environment variable or pass api_key parameter"
                   (Some ["Missing API key"])),
            self)
      else
        match import_genai api with
        | ImportError =>
            (inr (AppResult.fail
                    "Google GenAI library is not installed. Please install with: pip install google-genai"
                    (Some ["Missing dependency: google-genai"])),
             self)
        | ImportRaised e => (inl e, self)
        | Imported =>
            match make_client api (format_field (_api_key self)) with
            | inr client => (inr ok_none, mk (_api_key self) (Some client))
            | inl e =>
                (inr (AppResult.fail
                        ("Failed to initialize Gemini client: " ++ e)
                        (Some [e])),
                 self)
            end
        end
  end.

(** The handler of the outer [try]. *)
Definition summarization_failed (e : string) : AppResult.t Summary.t :=
  AppResult.fail ("Summarization failed: " ++ e) (Some [e]).

(** [self._client.models.generate_content(...)]; on a provider without a
    client the attribute access on [None] raises. *)
Definition call_generate_content (self : t) (contents : string)
    : string + option (option string) :=
  match _client self with
  | Some client => generate_content api client "gemini-2.0-flash-exp" contents
  | None => inl "'NoneType' object has no attribute 'models'"
  end.

Definition summarize (self : t) (text : string) : AppResult.t Summary.t * t :=
  match _initialize_model self with
  | (inl e, self) => (summarization_failed e, self)
  | (inr init_result, self) =>
      if negb (AppResult.success init_result)
      then (init_result, self)
      else
        match call_generate_content self (prompt text) with
        | inl e => (summarization_failed e, self)
        | inr None => (AppResult.fail "Gemini API returned empty response" None,
                       self)
        | inr (Some None) =>
            (AppResult.fail "Gemini API returned empty response" None, self)
        | inr (Some (Some response_text_raw)) =>
            if negb (PyStr.truthy response_text_raw)
            then (AppResult.fail "Gemini API returned empty response" None,
                  self)
            else
              let response_text := PyStr.strip response_text_raw in
              match extract response_text with
              | inl e => (summarization_failed e, self)
              | inr (summary_text, action_items) =>
                  if negb (PyStr.truthy summary_text)
                  then (AppResult.fail
                          "Failed to extract summary from Gemini response"
                          None,
                        self)
                  else
                    match Summary.init summary_text (Some action_items) with
                    | Raised e =>
                        (summarization_failed (PyText.str_of_exn e), self)
                    | Returned summary =>
                        (AppResult.ok summary "Summary generated successfully",
                         self)
                    end
              end
        end
  end.

End WithClient.

Arguments mkApi {Client}.
Arguments import_genai {Client}.
Arguments make_client {Client}.
Arguments generate_content {Client}.
Arguments mk {Client}.
Arguments _api_key {Client}.
Arguments _client {Client}.
Arguments init {Client}.
Arguments ok_none {T}.
Arguments _initialize_model {Client} api {T}.
Arguments call_generate_content {Client}.
Arguments summarize {Client}.

(** The provider, in a given world, as an [ISummarizationProvider]. *)
Definition provider {Client : Type} (api : Api Client)
    : ISummarizationProvider (t Client) :=
  Build_ISummarizationProvider (t Client) (summarize api).

End GeminiSummarizationProvider.

(** What an action item that [summarize] keeps looks like: not empty,
    with no whitespace at either end, and not the placeholder "none
    identified" in any letter case. *)
Definition clean_item_facts (item : string) : Prop :=
  item <> ""
  /\ PyStr.strip item = item
  /\ PyText.lower item <> "none identified".

(* ===================================================================== *)
(** ** Sample worlds for the two providers *)

Module Samples.

(** An engine whose models are their names, on a disk with one file; it
    hears the same words, padded with spaces, in every file. *)
Definition engine : WhisperTranscriptionProvider.Engine string :=
  WhisperTranscriptionProvider.mkEngine
    (fun p => String.eqb p "/path/to/audio.mp3")
    Imported
    (fun name => inr name)
    (fun _ _ =>
       inr (WhisperTranscriptionProvider.mkResult "  Hello world  "
              (Some "en"))).

(** The same engine where no model can be loaded any more. *)
Definition offline_engine : WhisperTranscriptionProvider.Engine string :=
  WhisperTranscriptionProvider.mkEngine
    (fun p => String.eqb p "/path/to/audio.mp3")
    Imported
    (fun _ => inl "no network")
    (fun _ _ =>
       inr (WhisperTranscriptionProvider.mkResult "  Hello world  "
              (Some "en"))).

(** An engine that hears nothing but blanks. *)
Definition silent_engine : WhisperTranscriptionProvider.Engine string :=
  WhisperTranscriptionProvider.mkEngine
    (fun p => String.eqb p "/path/to/audio.mp3")
    Imported
    (fun name => inr name)
    (fun _ _ => inr (WhisperTranscriptionProvider.mkResult "   " None)).

Definition hello : Transcription.t :=
  Transcription.mk "Hello world" "/path/to/audio.mp3" "base" (Some "en") None.

(** A response in the format the prompt asks for. *)
Definition response : string :=
  Py.join Py.nl
    ["SUMMARY:"; "The team met."; ""; "ACTION ITEMS:"; "- Send report";
     "* Call Bob  "; "-  None Identified"; "-"; "plain line"].

(** An API whose client is a token and which answers every prompt with
    [response]. *)
Definition api : GeminiSummarizationProvider.Api unit :=
  GeminiSummarizationProvider.mkApi
    Imported
    (fun _ => inr tt)
    (fun _ _ _ => inr (Some (Some response))).

(** An API with nothing installed and nothing reachable. *)
Definition dead_api : GeminiSummarizationProvider.Api unit :=
  GeminiSummarizationProvider.mkApi
    ImportError
    (fun _ => inl "unreachable")
    (fun _ _ _ => inl "unreachable").

(** An API that answers in free prose. *)
Definition prose_api : GeminiSummarizationProvider.Api unit :=
  GeminiSummarizationProvider.mkApi
    Imported
    (fun _ => inr tt)
    (fun _ _ _ => inr (Some (Some "  They talked about the launch.  "))).

End Samples.

(* ===================================================================== *)
(** * Properties *)

(** ** Strings *)

Lemma truthy_false_iff (s : string) : PyStr.truthy s = false <-> s = "".
Proof. destruct s; simpl; split; congruence. Qed.

Lemma truthy_true_iff (s : string) : PyStr.truthy s = true <-> s <> "".
Proof. destruct s; simpl; split; congruence. Qed.

Lemma lstrip_all_space (s : string) :
  PyStr.all_space s = true -> PyStr.lstrip s = "".
Proof.
  induction s as [|c s IH]; simpl; [reflexivity|].
  intros Hs. apply andb_true_iff in Hs as [Hc Hs].
  rewrite Hc. exact (IH Hs).
Qed.

Lemma lstrip_not_all_space (s : string) :
  PyStr.all_space s = false ->
  exists c r, PyStr.lstrip s = String c r /\ PyStr.isspace c = false.
Proof.
  induction s as [|c s IH]; simpl; [discriminate|].
  destruct (PyStr.isspace c) eqn:Hc; simpl.
  - exact IH.
  - intros _. exists c, s. split; [reflexivity | exact Hc].
Qed.

Lemma rstrip_keeps_nonspace_head (c : ascii) (r : string) :
  PyStr.isspace c = false -> PyStr.rstrip (String c r) <> "".
Proof.
  intros Hc. simpl. destruct (PyStr.rstrip r); [rewrite Hc|]; discriminate.
Qed.

Lemma strip_empty_iff (s : string) :
  PyStr.strip s = "" <-> PyStr.all_space s = true.
Proof.
  unfold PyStr.strip. split.
  - intros Hs. destruct (PyStr.all_space s) eqn:Ha; [reflexivity|].
    destruct (lstrip_not_all_space s Ha) as (c & r & Hl & Hc).
    rewrite Hl in Hs. exfalso.
    exact (rstrip_keeps_nonspace_head c r Hc Hs).
  - intros Ha. rewrite (lstrip_all_space s Ha). reflexivity.
Qed.

Lemma all_space_empty : PyStr.all_space "" = true.
Proof. reflexivity. Qed.

(** ** Small facts about the Python idioms *)

Lemma or_empty_Some {A : Type} (l : list A) : or_empty (Some l) = l.
Proof. destruct l; reflexivity. Qed.

Lemma list_truthy_false_iff {A : Type} (l : list A) :
  list_truthy l = false <-> l = [].
Proof. destruct l; simpl; split; congruence. Qed.

Lemma py_in_choices_None : py_in None model_choices = true.
Proof. reflexivity. Qed.

Lemma py_in_choices_Some (m : string) :
  py_in (Some m) model_choices = true <->
  In m ["tiny"; "base"; "small"; "medium"; "large"].
Proof.
  unfold py_in, model_choices. simpl.
  rewrite !orb_true_iff, !String.eqb_eq. intuition congruence.
Qed.

Lemma py_in_choices_other (m : string) :
  ~ In m ["tiny"; "base"; "small"; "medium"; "large"] ->
  py_in (Some m) model_choices = false.
Proof.
  intros Hm. destruct (py_in (Some m) model_choices) eqn:E; [|reflexivity].
  apply py_in_choices_Some in E. contradiction.
Qed.

(** ** Command validation *)

(** Both path-bearing commands compute [path_and_model_errors] of their
    own two fields. *)
Lemma validate_path_bearing :
  (forall c, TranscribeAudioCommand.validate c =
             path_and_model_errors (TranscribeAudioCommand.audio_file_path c)
                                   (TranscribeAudioCommand.model c)) /\
  (forall c, ProcessAudioFileCommand.validate c =
             path_and_model_errors (ProcessAudioFileCommand.audio_file_path c)
                                   (ProcessAudioFileCommand.model c)).
Proof.
  split; intros c; destruct c;
    unfold TranscribeAudioCommand.validate, ProcessAudioFileCommand.validate,
      path_and_model_errors;
    cbn [TranscribeAudioCommand.audio_file_path TranscribeAudioCommand.model
         ProcessAudioFileCommand.audio_file_path ProcessAudioFileCommand.model];
    match goal with
    | |- context [PyStr.truthy ?p] => destruct (PyStr.truthy p)
    end;
    match goal with
    | |- context [py_in ?m model_choices] => destruct (py_in m model_choices)
    end; reflexivity.
Qed.

Lemma invalid_model_is_not_path_required (m : option string) :
  invalid_model m <> path_required.
Proof. unfold invalid_model, path_required. simpl. discriminate. Qed.

Lemma path_required_in_errors (p : string) (m : option string) :
  In path_required (path_and_model_errors p m) <-> p = "".
Proof.
  unfold path_and_model_errors.
  rewrite in_app_iff. split.
  - intros [Hp | Hm].
    + destruct p; [reflexivity | destruct Hp].
    + destruct (py_in m model_choices); [destruct Hm|].
      destruct Hm as [Hm | []].
      exfalso. exact (invalid_model_is_not_path_required m Hm).
  - intros ->. left. simpl. left. reflexivity.
Qed.

Lemma validate_blank_text (text : string) :
  PyStr.all_space text = true ->
  GenerateSummaryCommand.validate (GenerateSummaryCommand.mk text) =
  ["Text is required for summarization"].
Proof.
  intros Ha. unfold GenerateSummaryCommand.validate. simpl.
  apply strip_empty_iff in Ha. rewrite Ha. simpl.
  rewrite orb_true_r. reflexivity.
Qed.

Lemma validate_visible_text (text : string) :
  PyStr.all_space text = false ->
  GenerateSummaryCommand.validate (GenerateSummaryCommand.mk text) = [].
Proof.
  intros Ha. unfold GenerateSummaryCommand.validate. simpl.
  destruct text as [|c r]; [discriminate|]. simpl.
  destruct (PyStr.strip (String c r)) eqn:Hs; [|reflexivity].
  apply strip_empty_iff in Hs. congruence.
Qed.

(** ** The result envelope *)

(** Each factory on its own: what [fail], [validation_error] and [ok] at
    a value build satisfies the invariant. *)
Lemma fail_is_well_formed {T : Type} (m : string) (e : option (list string)) :
  AppResult.invariant (AppResult.fail (T:=T) m e).
Proof. split; intros Hs; [discriminate Hs | reflexivity]. Qed.

Lemma validation_error_is_well_formed {T : Type} (e : list string) :
  AppResult.invariant (AppResult.validation_error (T:=T) e).
Proof. split; intros Hs; [discriminate Hs | reflexivity]. Qed.

Lemma ok_is_well_formed {T : Type} (v : T) (m : string) :
  AppResult.invariant (AppResult.ok v m).
Proof.
  split; intros Hs; [|discriminate Hs].
  split; [discriminate | reflexivity].
Qed.

(** C2, as stated, fails, for a factory and for the constructor:
    [ok(None)] is a success with no value; and the constructor accepts
    any combination of fields, so an envelope can be successful with no
    value and with errors, or failed with a value. *)
Lemma envelope_invariant_is_not_enforced :
  AppResult.constructed (AppResult.ok_of (T:=string) None "")
  /\ ~ AppResult.invariant (AppResult.ok_of (T:=string) None "")
  /\ AppResult.constructed
       (AppResult.init (T:=string) true None "" (Some ["late"]))
  /\ ~ AppResult.invariant
         (AppResult.init (T:=string) true None "" (Some ["late"]))
  /\ AppResult.constructed (AppResult.init false (Some "kept") "" None)
  /\ ~ AppResult.invariant (AppResult.init false (Some "kept") "" None).
Proof.
  split; [apply AppResult.by_factory; apply AppResult.from_ok|].
  split.
  { intros [Hs _]. destruct (Hs eq_refl) as [Hv _]. apply Hv. reflexivity. }
  split; [apply AppResult.by_init|].
  split.
  { intros [Hs _]. destruct (Hs eq_refl) as [Hv _]. apply Hv. reflexivity. }
  split; [apply AppResult.by_init|].
  intros [_ Hf]. specialize (Hf eq_refl). discriminate Hf.
Qed.

(** C2, amended: for every envelope built by [ok], [fail] or
    [validation_error], success implies that the errors are empty and
    failure implies that the value is absent; [ok] keeps its argument as
    the value, so the value is present exactly when the argument is not
    [None]; and the factory envelopes that break the invariant are the
    [ok(None, message)] and no other. *)
Theorem factory_envelopes_and_the_invariant :
  forall (T : Type) (r : AppResult.t T),
    AppResult.from_factory r ->
    (AppResult.success r = true -> AppResult.errors r = [])
    /\ (AppResult.success r = false -> AppResult.value r = None)
    /\ (forall (v : option T) (m : string),
          r = AppResult.ok_of v m -> AppResult.value r = v)
    /\ (AppResult.invariant r
        <-> ~ exists m : string, r = AppResult.ok_of None m).
Proof.
  intros T r Hr. destruct Hr as [v m | m e | e].
  - split; [reflexivity|]. split; [discriminate|].
    split; [intros v' m' ->; reflexivity|].
    destruct v as [x|].
    + split; [intros _ [m' Hm']; discriminate Hm'|].
      intros _. apply (ok_is_well_formed x m).
    + split.
      * intros [Hs _]. destruct (Hs eq_refl) as [Hv _].
        contradiction Hv. reflexivity.
      * intros Hn. contradiction Hn. exists m. reflexivity.
  - split; [discriminate|]. split; [reflexivity|].
    split; [intros v' m' Hr; discriminate Hr|].
    split; [intros _ [m' Hm']; discriminate Hm'|].
    intros _. apply fail_is_well_formed.
  - split; [discriminate|]. split; [reflexivity|].
    split; [intros v' m' Hr; discriminate Hr|].
    split; [intros _ [m' Hm']; discriminate Hm'|].
    intros _. apply validation_error_is_well_formed.
Qed.

Lemma factory_envelopes_and_the_invariant_witness :
  AppResult.invariant (AppResult.ok "test value" "Success message")
  /\ AppResult.value
       (AppResult.fail (T:=string) "Error message"
          (Some ["Error 1"; "Error 2"])) = None.
Proof.
  split.
  - apply (proj2 (proj2 (proj2
             (factory_envelopes_and_the_invariant string
                (AppResult.ok "test value" "Success message")
                (AppResult.from_ok (Some "test value") "Success message"))))).
    intros [m Hm]. discriminate Hm.
  - apply (proj1 (proj2
             (factory_envelopes_and_the_invariant string
                (AppResult.fail "Error message"
                   (Some ["Error 1"; "Error 2"]))
                (AppResult.from_fail "Error message"
                   (Some ["Error 1"; "Error 2"]))))).
    reflexivity.
Defined.

(** ** Validation of the path-bearing commands *)

(** C6, as stated, fails: a path made only of spaces is truthy, nothing
    trims it, and both commands accept it. *)
Lemma whitespace_path_is_accepted :
  PyStr.all_space "  " = true
  /\ ~ In "Audio file path is required"
         (TranscribeAudioCommand.validate
            (TranscribeAudioCommand.mk "  " (Some "base")))
  /\ ~ In "Audio file path is required"
         (ProcessAudioFileCommand.validate
            (ProcessAudioFileCommand.mk "  " (Some "base") false)).
Proof.
  split; [reflexivity|]. split; simpl; intros H; exact H.
Qed.

(** C6, amended: a path-bearing command reports "Audio file path is
    required" exactly when its path is the empty string; a path that is
    not empty, all-whitespace or not, gives no path violation. *)
Theorem path_required_iff_empty_path :
  (forall c : TranscribeAudioCommand.t,
      In "Audio file path is required" (TranscribeAudioCommand.validate c)
      <-> TranscribeAudioCommand.audio_file_path c = "")
  /\ (forall c : ProcessAudioFileCommand.t,
      In "Audio file path is required" (ProcessAudioFileCommand.validate c)
      <-> ProcessAudioFileCommand.audio_file_path c = "").
Proof.
  destruct validate_path_bearing as [Ht Hp].
  split; intros c; [rewrite Ht | rewrite Hp]; apply path_required_in_errors.
Qed.

(** C7: with no model the two commands report their path errors and
    nothing else; with a model outside the five sizes they report, after
    the path errors, exactly one string that names the model. *)
Theorem validate_model_rule :
  forall (p : string) (k : bool),
    (TranscribeAudioCommand.validate (TranscribeAudioCommand.mk p None)
       = path_errors p
     /\ ProcessAudioFileCommand.validate (ProcessAudioFileCommand.mk p None k)
       = path_errors p)
    /\ (forall v : string,
          ~ In v ["tiny"; "base"; "small"; "medium"; "large"] ->
          TranscribeAudioCommand.validate
            (TranscribeAudioCommand.mk p (Some v))
          = (path_errors p
             ++ [("Invalid model: " ++ v
                  ++ ". Must be one of: tiny, base, small, medium, large")%string])%list
          /\ ProcessAudioFileCommand.validate
               (ProcessAudioFileCommand.mk p (Some v) k)
             = (path_errors p
                ++ [("Invalid model: " ++ v
                     ++ ". Must be one of: tiny, base, small, medium, large")%string])%list).
Proof.
  intros p k. destruct validate_path_bearing as [Ht Hp].
  rewrite Ht, Hp. unfold path_and_model_errors, path_errors.
  cbn [TranscribeAudioCommand.audio_file_path TranscribeAudioCommand.model
       ProcessAudioFileCommand.audio_file_path ProcessAudioFileCommand.model].
  split.
  - rewrite py_in_choices_None, app_nil_r. split; reflexivity.
  - intros v Hv. rewrite Ht, Hp.
    cbn [TranscribeAudioCommand.audio_file_path TranscribeAudioCommand.model
         ProcessAudioFileCommand.audio_file_path ProcessAudioFileCommand.model].
    unfold path_and_model_errors.
    rewrite (py_in_choices_other v Hv). split; reflexivity.
Qed.

Lemma validate_model_rule_witness :
  TranscribeAudioCommand.validate
    (TranscribeAudioCommand.mk "/path/to/audio.mp3" (Some "invalid"))
  = ["Invalid model: invalid. Must be one of: tiny, base, small, medium, large"]
  /\ ProcessAudioFileCommand.validate
       (ProcessAudioFileCommand.mk "/path/to/audio.mp3" (Some "invalid") true)
     = ["Invalid model: invalid. Must be one of: tiny, base, small, medium, large"].
Proof.
  apply (proj2 (validate_model_rule "/path/to/audio.mp3" true) "invalid").
  simpl. intros H. repeat (destruct H as [H | H]; [discriminate H|]). exact H.
Defined.

(** ** Entities *)

(** C8, as stated, fails: the constructor never looks at the duration, so
    a transcription with a negative duration is built. *)
Lemma negative_duration_is_accepted :
  Transcription.negative_duration (Some (-1.5)%float) = true
  /\ Transcription.init "Test transcription text" "/path/to/audio.mp3" "base"
       None (Some (-1.5)%float)
     = Returned (Transcription.mk "Test transcription text"
                   "/path/to/audio.mp3" "base" None (Some (-1.5)%float)).
Proof. split; reflexivity. Qed.

(** C8, amended: constructing a Transcription fails exactly when its text
    or its audio file path is empty, and otherwise returns the record
    with the five fields as given, whatever the duration. *)
Theorem transcription_init_fails_iff :
  forall (text path model_used : string) (language : option string)
         (duration : option float),
    ((exists e, Transcription.init text path model_used language duration
                = Raised e)
     <-> text = "" \/ path = "")
    /\ (Transcription.init text path model_used language duration
        = Returned (Transcription.mk text path model_used language duration)
        <-> text <> "" /\ path <> "").
Proof.
  intros text path model_used language duration.
  unfold Transcription.init.
  destruct text as [|a text]; [|destruct path as [|b path]]; simpl.
  - split; split.
    + intros _. left. reflexivity.
    + intros _. eexists. reflexivity.
    + discriminate.
    + intros [H _]. contradiction H. reflexivity.
  - split; split.
    + intros _. right. reflexivity.
    + intros _. eexists. reflexivity.
    + discriminate.
    + intros [_ H]. contradiction H. reflexivity.
  - split; split.
    + intros [e He]. discriminate He.
    + intros [H | H]; discriminate H.
    + intros _. split; discriminate.
    + reflexivity.
Qed.

(** ** Services *)

(** Closes the invariant of an envelope that a factory has just built. *)
Ltac well_formed_factory :=
  first [ apply fail_is_well_formed
        | apply ok_is_well_formed
        | apply validation_error_is_well_formed ].

(** Runs a service method on an explicit state down to provider calls. *)
Ltac run_service :=
  unfold AudioProcessingService.process_audio_file,
    AudioProcessingService.generate_summary,
    TranscriptionService.transcribe_audio,
    AudioProcessingService.call_transcribe,
    AudioProcessingService.call_summarize,
    TranscriptionService.call_transcribe, bind, ret, lift;
  cbn [service calls list_truthy
       AudioProcessingService._transcription_provider
       AudioProcessingService._summarization_provider
       TranscriptionService._transcription_provider
       GenerateSummaryCommand.text].

Section ServiceProperties.

Context {TP SP : Type} `{ITranscriptionProvider TP}
        `{ISummarizationProvider SP}.

Implicit Types (command : ProcessAudioFileCommand.t)
               (svc : AudioProcessingService.t TP SP)
               (log : list Call).

(** C3: a command with an empty path is answered with the validation
    envelope, whose errors contain "Audio file path is required"; the run
    state comes back as it was, so no provider was called. *)
Theorem process_audio_file_empty_path :
  forall command (h : Run (AudioProcessingService.t TP SP)),
    ProcessAudioFileCommand.audio_file_path command = "" ->
    exists res,
      AudioProcessingService.process_audio_file command h = (Returned res, h)
      /\ AppResult.success res = false
      /\ AppResult.message res = "Validation failed"
      /\ In "Audio file path is required" (AppResult.errors res).
Proof.
  intros command h Hp.
  assert (Hin : In path_required (ProcessAudioFileCommand.validate command)).
  { rewrite (proj2 validate_path_bearing).
    apply path_required_in_errors. exact Hp. }
  run_service.
  destruct (ProcessAudioFileCommand.validate command) as [|e l] eqn:Hv;
    [destruct Hin|].
  cbn [list_truthy]. eexists. split; [reflexivity|].
  simpl. repeat split. exact Hin.
Qed.

(** C1: when the command is valid and the transcription provider answers
    with a failed envelope, the service returns a failed envelope with
    the prefixed message and the provider's errors; the only provider
    call of the run is the transcription, and the summarization provider
    is the one the service started with. *)
Theorem process_audio_file_transcription_fails :
  forall command svc log (r : AppResult.t Transcription.t) (tp' : TP),
    ProcessAudioFileCommand.validate command = [] ->
    transcribe (AudioProcessingService._transcription_provider svc)
      (ProcessAudioFileCommand.audio_file_path command)
      (ProcessAudioFileCommand.model command) = (r, tp') ->
    AppResult.success r = false ->
    exists res,
      AudioProcessingService.process_audio_file command (mkRun svc log)
      = (Returned res,
         mkRun (AudioProcessingService.mk tp'
                  (AudioProcessingService._summarization_provider svc))
               (log ++ [TranscribeCall
                          (ProcessAudioFileCommand.audio_file_path command)
                          (ProcessAudioFileCommand.model command)])%list)
      /\ AppResult.success res = false
      /\ AppResult.message res
         = "Transcription failed: " ++ AppResult.message r
      /\ AppResult.errors res = AppResult.errors r.
Proof.
  intros command svc log r tp' Hv Ht Hs.
  run_service. rewrite Hv. run_service. rewrite Ht, Hs.
  cbn [negb]. eexists. split; [reflexivity|].
  simpl. repeat split. apply or_empty_Some.
Qed.

(** C4: when the command is valid, asks to skip the summary, and the
    transcription succeeds, the service returns a successful envelope
    with the skip message, holding the transcription and the sentinel
    summary; the only provider call of the run is the transcription. *)
Theorem process_audio_file_skip_summary :
  forall command svc log (r : AppResult.t Transcription.t) (tp' : TP),
    ProcessAudioFileCommand.validate command = [] ->
    ProcessAudioFileCommand.skip_summary command = true ->
    transcribe (AudioProcessingService._transcription_provider svc)
      (ProcessAudioFileCommand.audio_file_path command)
      (ProcessAudioFileCommand.model command) = (r, tp') ->
    AppResult.success r = true ->
    exists res,
      AudioProcessingService.process_audio_file command (mkRun svc log)
      = (Returned res,
         mkRun (AudioProcessingService.mk tp'
                  (AudioProcessingService._summarization_provider svc))
               (log ++ [TranscribeCall
                          (ProcessAudioFileCommand.audio_file_path command)
                          (ProcessAudioFileCommand.model command)])%list)
      /\ AppResult.success res = true
      /\ AppResult.message res = "Transcription completed (summary skipped)"
      /\ AppResult.value res
         = Some (AppResult.value r,
                 Some (Summary.mk "Summary skipped by user" []))
      /\ AppResult.errors res = [].
Proof.
  intros command svc log r tp' Hv Hk Ht Hs.
  run_service. rewrite Hv. run_service. rewrite Ht, Hs, Hk.
  cbn [negb]. eexists. split; [reflexivity|].
  simpl. repeat split.
Qed.

(** C5, amended: when the command is valid and does not skip the summary,
    the transcription succeeds with [t], the text of [t] has a character
    that is not whitespace, and the summarization provider succeeds with
    [s] on that text, the service returns a successful envelope with the
    completion message, holding exactly [t] and [s]. *)
Theorem process_audio_file_success :
  forall command svc log (r : AppResult.t Transcription.t) (tp' : TP)
         (t : Transcription.t) (rs : AppResult.t Summary.t) (sp' : SP)
         (s : Summary.t),
    ProcessAudioFileCommand.validate command = [] ->
    ProcessAudioFileCommand.skip_summary command = false ->
    transcribe (AudioProcessingService._transcription_provider svc)
      (ProcessAudioFileCommand.audio_file_path command)
      (ProcessAudioFileCommand.model command) = (r, tp') ->
    AppResult.success r = true ->
    AppResult.value r = Some t ->
    PyStr.all_space (Transcription.text t) = false ->
    summarize (AudioProcessingService._summarization_provider svc)
      (Transcription.text t) = (rs, sp') ->
    AppResult.success rs = true ->
    AppResult.value rs = Some s ->
    exists res,
      AudioProcessingService.process_audio_file command (mkRun svc log)
      = (Returned res,
         mkRun (AudioProcessingService.mk tp' sp')
               (log ++ [TranscribeCall
                          (ProcessAudioFileCommand.audio_file_path command)
                          (ProcessAudioFileCommand.model command)]
                    ++ [SummarizeCall (Transcription.text t)])%list)
      /\ AppResult.success res = true
      /\ AppResult.message res = "Audio processing completed successfully"
      /\ AppResult.value res = Some (Some t, Some s)
      /\ AppResult.errors res = [].
Proof.
  intros command svc log r tp' t rs sp' s Hv Hk Ht Hs Hval Htext Hsum Hss Hsv.
  run_service. rewrite Hv. run_service. rewrite Ht, Hs, Hk, Hval.
  cbn [negb getattr_text]. run_service.
  rewrite (validate_visible_text _ Htext). run_service.
  rewrite Hsum, Hss, Hsv. cbn [negb].
  eexists. split; [rewrite <- app_assoc; reflexivity|].
  simpl. repeat split.
Qed.

(** C10: when the command is valid and does not skip the summary, and the
    transcription succeeds with a text made only of whitespace, the
    service returns a failed envelope with message "Summarization failed:
    Validation failed" whose errors are the text violation; the only
    provider call of the run is the transcription. *)
Theorem process_audio_file_blank_transcript :
  forall command svc log (r : AppResult.t Transcription.t) (tp' : TP)
         (t : Transcription.t),
    ProcessAudioFileCommand.validate command = [] ->
    ProcessAudioFileCommand.skip_summary command = false ->
    transcribe (AudioProcessingService._transcription_provider svc)
      (ProcessAudioFileCommand.audio_file_path command)
      (ProcessAudioFileCommand.model command) = (r, tp') ->
    AppResult.success r = true ->
    AppResult.value r = Some t ->
    Transcription.text t <> "" ->
    PyStr.all_space (Transcription.text t) = true ->
    exists res,
      AudioProcessingService.process_audio_file command (mkRun svc log)
      = (Returned res,
         mkRun (AudioProcessingService.mk tp'
                  (AudioProcessingService._summarization_provider svc))
               (log ++ [TranscribeCall
                          (ProcessAudioFileCommand.audio_file_path command)
                          (ProcessAudioFileCommand.model command)])%list)
      /\ AppResult.success res = false
      /\ AppResult.message res = "Summarization failed: Validation failed"
      /\ In "Text is required for summarization" (AppResult.errors res)
      /\ AppResult.errors res = ["Text is required for summarization"].
Proof.
  intros command svc log r tp' t Hv Hk Ht Hs Hval _ Htext.
  run_service. rewrite Hv. run_service. rewrite Ht, Hs, Hk, Hval.
  cbn [negb getattr_text]. run_service.
  rewrite (validate_blank_text _ Htext). run_service.
  eexists. split; [reflexivity|].
  simpl. repeat split. left. reflexivity.
Qed.

(** C9: for a valid command, [transcribe_audio] and [generate_summary]
    return the very envelope their provider produced, after exactly one
    call of that provider with the command's fields. *)
Theorem services_pass_provider_envelope_through :
  (forall (command : TranscribeAudioCommand.t)
          (svc : TranscriptionService.t TP) (log : list Call)
          (r : AppResult.t Transcription.t) (tp' : TP),
      TranscribeAudioCommand.validate command = [] ->
      transcribe (TranscriptionService._transcription_provider svc)
        (TranscribeAudioCommand.audio_file_path command)
        (TranscribeAudioCommand.model command) = (r, tp') ->
      TranscriptionService.transcribe_audio command (mkRun svc log)
      = (Returned r,
         mkRun (TranscriptionService.mk tp')
               (log ++ [TranscribeCall
                          (TranscribeAudioCommand.audio_file_path command)
                          (TranscribeAudioCommand.model command)])%list))
  /\ (forall (command : GenerateSummaryCommand.t)
             (svc : AudioProcessingService.t TP SP) (log : list Call)
             (r : AppResult.t Summary.t) (sp' : SP),
      GenerateSummaryCommand.validate command = [] ->
      summarize (AudioProcessingService._summarization_provider svc)
        (GenerateSummaryCommand.text command) = (r, sp') ->
      AudioProcessingService.generate_summary command (mkRun svc log)
      = (Returned r,
         mkRun (AudioProcessingService.mk
                  (AudioProcessingService._transcription_provider svc) sp')
               (log ++ [SummarizeCall (GenerateSummaryCommand.text command)])%list)).
Proof.
  split.
  - intros command svc log r tp' Hv Ht.
    run_service. rewrite Hv. run_service. rewrite Ht. reflexivity.
  - intros command svc log r sp' Hv Ht.
    run_service. rewrite Hv. run_service. rewrite Ht. reflexivity.
Qed.

End ServiceProperties.

(** ** The service theorems on the mocks of the unit tests *)

Lemma process_audio_file_empty_path_witness :
  exists res,
    AudioProcessingService.process_audio_file Fixtures.command_no_path
      (mkRun (Fixtures.service (AppResult.ok Fixtures.transcription "")
                (AppResult.ok Fixtures.summary "")) [])
    = (Returned res,
       mkRun (Fixtures.service (AppResult.ok Fixtures.transcription "")
                (AppResult.ok Fixtures.summary "")) [])
    /\ AppResult.success res = false
    /\ AppResult.message res = "Validation failed"
    /\ In "Audio file path is required" (AppResult.errors res).
Proof.
  exact (process_audio_file_empty_path Fixtures.command_no_path
           (mkRun (Fixtures.service (AppResult.ok Fixtures.transcription "")
                     (AppResult.ok Fixtures.summary "")) [])
           eq_refl).
Defined.

Lemma process_audio_file_transcription_fails_witness :
  exists res,
    AudioProcessingService.process_audio_file Fixtures.command
      (mkRun (Fixtures.service Fixtures.file_not_found
                (AppResult.ok Fixtures.summary "")) [])
    = (Returned res,
       mkRun (AudioProcessingService.mk
                (Fixtures.called_once Fixtures.file_not_found)
                (Mock.returning (AppResult.ok Fixtures.summary "")))
             [TranscribeCall "/path/to/audio.mp3" (Some "base")])
    /\ AppResult.success res = false
    /\ AppResult.message res = "Transcription failed: File not found"
    /\ AppResult.errors res = ["Audio file does not exist"].
Proof.
  exact (process_audio_file_transcription_fails Fixtures.command
           (Fixtures.service Fixtures.file_not_found
              (AppResult.ok Fixtures.summary ""))
           [] Fixtures.file_not_found
           (Fixtures.called_once Fixtures.file_not_found)
           eq_refl eq_refl eq_refl).
Defined.

Lemma process_audio_file_skip_summary_witness :
  exists res,
    AudioProcessingService.process_audio_file Fixtures.command_skip
      (mkRun (Fixtures.service (AppResult.ok Fixtures.transcription "")
                Fixtures.api_error) [])
    = (Returned res,
       mkRun (AudioProcessingService.mk
                (Fixtures.called_once (AppResult.ok Fixtures.transcription ""))
                (Mock.returning Fixtures.api_error))
             [TranscribeCall "/path/to/audio.mp3" (Some "base")])
    /\ AppResult.success res = true
    /\ AppResult.message res = "Transcription completed (summary skipped)"
    /\ AppResult.value res
       = Some (Some Fixtures.transcription,
               Some (Summary.mk "Summary skipped by user" []))
    /\ AppResult.errors res = [].
Proof.
  exact (process_audio_file_skip_summary Fixtures.command_skip
           (Fixtures.service (AppResult.ok Fixtures.transcription "")
              Fixtures.api_error)
           [] (AppResult.ok Fixtures.transcription "")
           (Fixtures.called_once (AppResult.ok Fixtures.transcription ""))
           eq_refl eq_refl eq_refl eq_refl).
Defined.

(** C5, as stated, fails: both mocks answer with success, the
    transcription's text is three spaces, and the service returns a
    failure without calling the summarization mock. *)
Lemma blank_transcript_defeats_success :
  ProcessAudioFileCommand.validate Fixtures.command = []
  /\ ProcessAudioFileCommand.skip_summary Fixtures.command = false
  /\ transcribe
       (AudioProcessingService._transcription_provider Fixtures.blank_service)
       "/path/to/audio.mp3" (Some "base")
     = (AppResult.ok Fixtures.blank_transcription "",
        Fixtures.called_once (AppResult.ok Fixtures.blank_transcription ""))
  /\ Transcription.init "   " "/path/to/audio.mp3" "base" None None
     = Returned Fixtures.blank_transcription
  /\ fst (summarize
            (AudioProcessingService._summarization_provider
               Fixtures.blank_service)
            (Transcription.text Fixtures.blank_transcription))
     = AppResult.ok Fixtures.summary ""
  /\ AudioProcessingService.process_audio_file Fixtures.command
       (mkRun Fixtures.blank_service [])
     = (Returned
          (AppResult.mk false None "Summarization failed: Validation failed"
             ["Text is required for summarization"]),
        mkRun (AudioProcessingService.mk
                 (Fixtures.called_once
                    (AppResult.ok Fixtures.blank_transcription ""))
                 (Mock.returning (AppResult.ok Fixtures.summary "")))
              [TranscribeCall "/path/to/audio.mp3" (Some "base")]).
Proof. repeat split. Qed.

Lemma process_audio_file_success_witness :
  exists res,
    AudioProcessingService.process_audio_file Fixtures.command
      (mkRun (Fixtures.service (AppResult.ok Fixtures.transcription "")
                (AppResult.ok Fixtures.summary "")) [])
    = (Returned res,
       mkRun (AudioProcessingService.mk
                (Fixtures.called_once (AppResult.ok Fixtures.transcription ""))
                (Mock.mk (AppResult.ok Fixtures.summary "")
                   ["Test transcription text"]))
             [TranscribeCall "/path/to/audio.mp3" (Some "base");
              SummarizeCall "Test transcription text"])
    /\ AppResult.success res = true
    /\ AppResult.message res = "Audio processing completed successfully"
    /\ AppResult.value res = Some (Some Fixtures.transcription,
                                   Some Fixtures.summary)
    /\ AppResult.errors res = [].
Proof.
  exact (process_audio_file_success Fixtures.command
           (Fixtures.service (AppResult.ok Fixtures.transcription "")
              (AppResult.ok Fixtures.summary ""))
           [] (AppResult.ok Fixtures.transcription "")
           (Fixtures.called_once (AppResult.ok Fixtures.transcription ""))
           Fixtures.transcription
           (AppResult.ok Fixtures.summary "")
           (Mock.mk (AppResult.ok Fixtures.summary "")
              ["Test transcription text"])
           Fixtures.summary
           eq_refl eq_refl eq_refl eq_refl eq_refl eq_refl eq_refl eq_refl
           eq_refl).
Defined.

Lemma process_audio_file_blank_transcript_witness :
  exists res,
    AudioProcessingService.process_audio_file Fixtures.command
      (mkRun Fixtures.blank_service [])
    = (Returned res,
       mkRun (AudioProcessingService.mk
                (Fixtures.called_once
                   (AppResult.ok Fixtures.blank_transcription ""))
                (Mock.returning (AppResult.ok Fixtures.summary "")))
             [TranscribeCall "/path/to/audio.mp3" (Some "base")])
    /\ AppResult.success res = false
    /\ AppResult.message res = "Summarization failed: Validation failed"
    /\ In "Text is required for summarization" (AppResult.errors res)
    /\ AppResult.errors res = ["Text is required for summarization"].
Proof.
  refine (process_audio_file_blank_transcript Fixtures.command
            Fixtures.blank_service [] 
            (AppResult.ok Fixtures.blank_transcription "")
            (Fixtures.called_once
               (AppResult.ok Fixtures.blank_transcription ""))
            Fixtures.blank_transcription
            eq_refl eq_refl eq_refl eq_refl eq_refl _ eq_refl).
  simpl. discriminate.
Defined.

Lemma services_pass_provider_envelope_through_witness :
  TranscriptionService.transcribe_audio
    (TranscribeAudioCommand.mk "/path/to/audio.mp3" (Some "base"))
    (mkRun (Fixtures.transcription_service Fixtures.file_not_found) [])
  = (Returned Fixtures.file_not_found,
     mkRun (TranscriptionService.mk
              (Fixtures.called_once Fixtures.file_not_found))
           [TranscribeCall "/path/to/audio.mp3" (Some "base")])
  /\ AudioProcessingService.generate_summary
       (GenerateSummaryCommand.mk "Long text to summarize")
       (mkRun (Fixtures.service Fixtures.file_not_found Fixtures.api_error) [])
     = (Returned Fixtures.api_error,
        mkRun (AudioProcessingService.mk
                 (Mock.returning Fixtures.file_not_found)
                 (Mock.mk Fixtures.api_error ["Long text to summarize"]))
              [SummarizeCall "Long text to summarize"]).
Proof.
  split.
  - exact (proj1 (services_pass_provider_envelope_through
                    (TP:=MockTranscriber) (SP:=MockSummarizer))
             (TranscribeAudioCommand.mk "/path/to/audio.mp3" (Some "base"))
             (Fixtures.transcription_service Fixtures.file_not_found)
             [] Fixtures.file_not_found
             (Fixtures.called_once Fixtures.file_not_found)
             eq_refl eq_refl).
  - exact (proj2 (services_pass_provider_envelope_through
                    (TP:=MockTranscriber) (SP:=MockSummarizer))
             (GenerateSummaryCommand.mk "Long text to summarize")
             (Fixtures.service Fixtures.file_not_found Fixtures.api_error)
             [] Fixtures.api_error
             (Mock.mk Fixtures.api_error ["Long text to summarize"])
             eq_refl eq_refl).
Defined.

(* ===================================================================== *)
(** * Further properties of the core *)

(** ** Validation, as a whole *)

(** X8: [GenerateSummaryCommand.validate] has two answers only: no
    violation when the text has a character that is not whitespace, and
    the single text violation otherwise (empty text included). *)
Theorem generate_summary_command_validate_cases :
  forall c : GenerateSummaryCommand.t,
    (PyStr.all_space (GenerateSummaryCommand.text c) = false
     /\ GenerateSummaryCommand.validate c = [])
    \/ (PyStr.all_space (GenerateSummaryCommand.text c) = true
        /\ GenerateSummaryCommand.validate c
           = ["Text is required for summarization"]).
Proof.
  intros [text]. cbn [GenerateSummaryCommand.text].
  destruct (PyStr.all_space text) eqn:Ha.
  - right. split; [reflexivity | apply validate_blank_text; exact Ha].
  - left. split; [reflexivity | apply validate_visible_text; exact Ha].
Qed.

(** X9: a path-bearing command is valid exactly when its path is not
    empty and its model is absent or one of the five sizes; the two
    commands agree on equal fields, and [skip_summary] plays no part. *)
Theorem path_bearing_valid_iff :
  forall (p : string) (m : option string) (k : bool),
    (TranscribeAudioCommand.validate (TranscribeAudioCommand.mk p m) = []
     <-> p <> ""
         /\ (m = None
             \/ exists v, m = Some v
                  /\ In v ["tiny"; "base"; "small"; "medium"; "large"]))
    /\ ProcessAudioFileCommand.validate (ProcessAudioFileCommand.mk p m k)
       = TranscribeAudioCommand.validate (TranscribeAudioCommand.mk p m).
Proof.
  intros p m k. destruct validate_path_bearing as [Ht Hp].
  rewrite Ht, Hp.
  cbn [TranscribeAudioCommand.audio_file_path TranscribeAudioCommand.model
       ProcessAudioFileCommand.audio_file_path ProcessAudioFileCommand.model].
  split; [|reflexivity].
  unfold path_and_model_errors. split.
  - intros Hv. apply app_eq_nil in Hv as [H1 H2]. split.
    + destruct p; [discriminate H1 | discriminate].
    + destruct m as [v|]; [right | left; reflexivity].
      exists v. split; [reflexivity|].
      apply py_in_choices_Some.
      destruct (py_in (Some v) model_choices); [reflexivity | discriminate H2].
  - intros [Hp' Hm]. destruct p; [contradiction Hp'; reflexivity|].
    cbn [PyStr.truthy app].
    destruct Hm as [-> | (v & -> & Hv)].
    + reflexivity.
    + apply py_in_choices_Some in Hv. rewrite Hv. reflexivity.
Qed.

(** X10: constructing a Summary fails exactly when the conversation
    summary is empty; otherwise the record holds the summary as given and
    the action items as given, an absent list having become the empty
    list. *)
Theorem summary_init_fails_iff :
  forall (conversation_summary : string) (action_items : option (list string)),
    (Summary.init conversation_summary action_items
     = Raised (ValueError "Conversation summary cannot be empty")
     <-> conversation_summary = "")
    /\ (Summary.init conversation_summary action_items
        = Returned (Summary.mk conversation_summary
                      (match action_items with
                       | Some l => l
                       | None => []
                       end))
        <-> conversation_summary <> "").
Proof.
  intros cs items. unfold Summary.init.
  destruct cs as [|a cs]; simpl; split; split.
  - reflexivity.
  - reflexivity.
  - discriminate.
  - intros H. contradiction H. reflexivity.
  - discriminate.
  - discriminate.
  - discriminate.
  - reflexivity.
Qed.

(** ** The services, path by path *)

Section MoreServiceProperties.

Context {TP SP : Type} `{ITranscriptionProvider TP}
        `{ISummarizationProvider SP}.

Implicit Types (command : ProcessAudioFileCommand.t)
               (svc : AudioProcessingService.t TP SP)
               (log : list Call).

(** X1: when the command is valid and does not skip the summary, the
    transcription succeeds with a text that has a visible character, and
    the summarization provider answers with a failed envelope, the
    service returns a failed envelope with the prefixed message and the
    provider's errors, after one call of each provider, in that order. *)
Theorem process_audio_file_summarization_fails :
  forall command svc log (r : AppResult.t Transcription.t) (tp' : TP)
         (t : Transcription.t) (rs : AppResult.t Summary.t) (sp' : SP),
    ProcessAudioFileCommand.validate command = [] ->
    ProcessAudioFileCommand.skip_summary command = false ->
    transcribe (AudioProcessingService._transcription_provider svc)
      (ProcessAudioFileCommand.audio_file_path command)
      (ProcessAudioFileCommand.model command) = (r, tp') ->
    AppResult.success r = true ->
    AppResult.value r = Some t ->
    PyStr.all_space (Transcription.text t) = false ->
    summarize (AudioProcessingService._summarization_provider svc)
      (Transcription.text t) = (rs, sp') ->
    AppResult.success rs = false ->
    exists res,
      AudioProcessingService.process_audio_file command (mkRun svc log)
      = (Returned res,
         mkRun (AudioProcessingService.mk tp' sp')
               (log ++ [TranscribeCall
                          (ProcessAudioFileCommand.audio_file_path command)
                          (ProcessAudioFileCommand.model command);
                        SummarizeCall (Transcription.text t)])%list)
      /\ AppResult.success res = false
      /\ AppResult.value res = None
      /\ AppResult.message res
         = "Summarization failed: " ++ AppResult.message rs
      /\ AppResult.errors res = AppResult.errors rs.
Proof.
  intros command svc log r tp' t rs sp' Hv Hk Ht Hs Hval Htext Hsum Hss.
  run_service. rewrite Hv. run_service. rewrite Ht, Hs, Hk, Hval.
  cbn [negb getattr_text]. run_service.
  rewrite (validate_visible_text _ Htext). run_service.
  rewrite Hsum, Hss. cbn [negb].
  eexists. split; [rewrite <- app_assoc; reflexivity|].
  simpl. repeat split. apply or_empty_Some.
Qed.

(** X2: a command with any violation, of the path or of the model, is
    answered with the validation envelope that lists exactly the
    violations of [validate]; the run state comes back unchanged, so no
    provider was called. *)
Theorem process_audio_file_rejects_invalid_command :
  forall command (h : Run (AudioProcessingService.t TP SP)),
    ProcessAudioFileCommand.validate command <> [] ->
    AudioProcessingService.process_audio_file command h
    = (Returned
         (AppResult.mk false None "Validation failed"
            (ProcessAudioFileCommand.validate command)), h).
Proof.
  intros command h Hv. run_service.
  destruct (ProcessAudioFileCommand.validate command) as [|e l];
    [contradiction Hv; reflexivity | reflexivity].
Qed.

(** X3: [process_audio_file] ends in one of two ways.  Either it returns
    an envelope, and that envelope satisfies the envelope invariant
    whatever the providers' envelopes looked like; or it raises
    AttributeError, which happens exactly on a valid command that does
    not skip the summary when the transcription provider reports success
    without a value, and then only the transcription provider was
    called. *)
Theorem process_audio_file_outcome :
  forall command svc log,
    (exists res h',
        AudioProcessingService.process_audio_file command (mkRun svc log)
        = (Returned res, h')
        /\ AppResult.invariant res)
    \/ (AudioProcessingService.process_audio_file command (mkRun svc log)
        = (Raised (AttributeError "'NoneType' object has no attribute 'text'"),
           mkRun (AudioProcessingService.mk
                    (snd (transcribe
                            (AudioProcessingService._transcription_provider svc)
                            (ProcessAudioFileCommand.audio_file_path command)
                            (ProcessAudioFileCommand.model command)))
                    (AudioProcessingService._summarization_provider svc))
                 (log ++ [TranscribeCall
                            (ProcessAudioFileCommand.audio_file_path command)
                            (ProcessAudioFileCommand.model command)])%list)
        /\ ProcessAudioFileCommand.validate command = []
        /\ ProcessAudioFileCommand.skip_summary command = false
        /\ AppResult.success
             (fst (transcribe
                     (AudioProcessingService._transcription_provider svc)
                     (ProcessAudioFileCommand.audio_file_path command)
                     (ProcessAudioFileCommand.model command))) = true
        /\ AppResult.value
             (fst (transcribe
                     (AudioProcessingService._transcription_provider svc)
                     (ProcessAudioFileCommand.audio_file_path command)
                     (ProcessAudioFileCommand.model command))) = None).
Proof.
  intros command svc log. run_service.
  destruct (ProcessAudioFileCommand.validate command) as [|e l] eqn:Hv;
    run_service.
  2:{ left. eexists _, _. split; [reflexivity|].
      well_formed_factory. }
  destruct (transcribe (AudioProcessingService._transcription_provider svc)
              (ProcessAudioFileCommand.audio_file_path command)
              (ProcessAudioFileCommand.model command)) as [r tp'] eqn:Ht.
  cbn [fst snd].
  destruct (AppResult.success r) eqn:Hs; cbn [negb].
  2:{ left. eexists _, _. split; [reflexivity|].
      well_formed_factory. }
  destruct (ProcessAudioFileCommand.skip_summary command) eqn:Hk.
  { left. eexists _, _. split; [reflexivity|].
    well_formed_factory. }
  destruct (AppResult.value r) as [t|] eqn:Hval; cbn [getattr_text].
  2:{ right. repeat split. }
  run_service.
  destruct (GenerateSummaryCommand.validate
              (GenerateSummaryCommand.mk (Transcription.text t)))
    as [|e l] eqn:Hg; run_service.
  2:{ left. eexists _, _. split; [reflexivity|].
      well_formed_factory. }
  destruct (summarize (AudioProcessingService._summarization_provider svc)
              (Transcription.text t)) as [rs sp'] eqn:Hsum.
  destruct (AppResult.success rs) eqn:Hss; cbn [negb];
    left; eexists _, _; (split; [reflexivity|]);
    well_formed_factory.
Qed.

(** X4: one run of [process_audio_file] calls each provider at most
    once, never repeats a call, and never calls the summarization
    provider before (or without) the transcription provider; a
    summarization call is made with the text of the transcription. *)
Theorem process_audio_file_call_discipline :
  forall command svc log,
    exists o h',
      AudioProcessingService.process_audio_file command (mkRun svc log)
      = (o, h')
      /\ (h' = mkRun svc log
          \/ calls h'
             = (log ++ [TranscribeCall
                          (ProcessAudioFileCommand.audio_file_path command)
                          (ProcessAudioFileCommand.model command)])%list
          \/ exists t,
               AppResult.value
                 (fst (transcribe
                         (AudioProcessingService._transcription_provider svc)
                         (ProcessAudioFileCommand.audio_file_path command)
                         (ProcessAudioFileCommand.model command))) = Some t
               /\ calls h'
                  = (log ++ [TranscribeCall
                               (ProcessAudioFileCommand.audio_file_path command)
                               (ProcessAudioFileCommand.model command);
                             SummarizeCall (Transcription.text t)])%list).
Proof.
  intros command svc log. run_service.
  destruct (ProcessAudioFileCommand.validate command) as [|e l] eqn:Hv;
    run_service.
  2:{ eexists _, _. split; [reflexivity|]. left. reflexivity. }
  destruct (transcribe (AudioProcessingService._transcription_provider svc)
              (ProcessAudioFileCommand.audio_file_path command)
              (ProcessAudioFileCommand.model command)) as [r tp'] eqn:Ht.
  cbn [fst].
  destruct (AppResult.success r) eqn:Hs; cbn [negb].
  2:{ eexists _, _. split; [reflexivity|]. right. left. reflexivity. }
  destruct (ProcessAudioFileCommand.skip_summary command) eqn:Hk.
  { eexists _, _. split; [reflexivity|]. right. left. reflexivity. }
  destruct (AppResult.value r) as [t|] eqn:Hval; cbn [getattr_text].
  2:{ eexists _, _. split; [reflexivity|]. right. left. reflexivity. }
  run_service.
  destruct (GenerateSummaryCommand.validate
              (GenerateSummaryCommand.mk (Transcription.text t)))
    as [|e l] eqn:Hg; run_service.
  2:{ eexists _, _. split; [reflexivity|]. right. left. reflexivity. }
  destruct (summarize (AudioProcessingService._summarization_provider svc)
              (Transcription.text t)) as [rs sp'] eqn:Hsum.
  destruct (AppResult.success rs) eqn:Hss; cbn [negb];
    eexists _, _; (split; [reflexivity|]); right; right;
    exists t; (split; [reflexivity|]); cbn [calls];
    rewrite <- app_assoc; reflexivity.
Qed.

(** X5: a successful envelope from [process_audio_file] is never
    unfounded: the command was valid and the transcription provider
    reported success; and either the summary was skipped, or the
    transcription carried a text with a visible character on which the
    summarization provider reported success, and the envelope holds that
    transcription and that provider's value. *)
Theorem process_audio_file_success_is_founded :
  forall command svc log res h',
    AudioProcessingService.process_audio_file command (mkRun svc log)
    = (Returned res, h') ->
    AppResult.success res = true ->
    ProcessAudioFileCommand.validate command = []
    /\ AppResult.success
         (fst (transcribe
                 (AudioProcessingService._transcription_provider svc)
                 (ProcessAudioFileCommand.audio_file_path command)
                 (ProcessAudioFileCommand.model command))) = true
    /\ ((ProcessAudioFileCommand.skip_summary command = true
         /\ AppResult.message res = "Transcription completed (summary skipped)")
        \/ (ProcessAudioFileCommand.skip_summary command = false
            /\ exists t,
                 AppResult.value
                   (fst (transcribe
                           (AudioProcessingService._transcription_provider svc)
                           (ProcessAudioFileCommand.audio_file_path command)
                           (ProcessAudioFileCommand.model command))) = Some t
                 /\ PyStr.all_space (Transcription.text t) = false
                 /\ AppResult.success
                      (fst (summarize
                              (AudioProcessingService._summarization_provider svc)
                              (Transcription.text t))) = true
                 /\ AppResult.value res
                    = Some (Some t,
                            AppResult.value
                              (fst (summarize
                                      (AudioProcessingService._summarization_provider svc)
                                      (Transcription.text t))))
                 /\ AppResult.message res
                    = "Audio processing completed successfully")).
Proof.
  intros command svc log res h'. run_service.
  destruct (ProcessAudioFileCommand.validate command) as [|e l] eqn:Hv;
    run_service.
  2:{ intros Hrun Hs. injection Hrun as <- _. discriminate Hs. }
  destruct (transcribe (AudioProcessingService._transcription_provider svc)
              (ProcessAudioFileCommand.audio_file_path command)
              (ProcessAudioFileCommand.model command)) as [r tp'] eqn:Ht.
  cbn [fst].
  destruct (AppResult.success r) eqn:Hs; cbn [negb].
  2:{ intros Hrun Hres. injection Hrun as <- _. discriminate Hres. }
  destruct (ProcessAudioFileCommand.skip_summary command) eqn:Hk.
  { intros Hrun _. injection Hrun as <- _.
    split; [reflexivity|]. split; [reflexivity|]. left. split; reflexivity. }
  destruct (AppResult.value r) as [t|] eqn:Hval; cbn [getattr_text].
  2:{ intros Hrun. discriminate Hrun. }
  run_service.
  destruct (PyStr.all_space (Transcription.text t)) eqn:Ha.
  { rewrite (validate_blank_text _ Ha). run_service.
    intros Hrun Hres. injection Hrun as <- _. discriminate Hres. }
  rewrite (validate_visible_text _ Ha). run_service.
  destruct (summarize (AudioProcessingService._summarization_provider svc)
              (Transcription.text t)) as [rs sp'] eqn:Hsum.
  cbn [fst].
  destruct (AppResult.success rs) eqn:Hss; cbn [negb].
  2:{ intros Hrun Hres. injection Hrun as <- _. discriminate Hres. }
  intros Hrun _. injection Hrun as <- _.
  split; [reflexivity|]. split; [reflexivity|]. right.
  split; [reflexivity|]. exists t. rewrite Hsum. cbn [fst].
  repeat split; assumption || reflexivity.
Qed.

(** X6: [transcribe_audio] always returns.  On a command with a
    violation it returns the validation envelope listing the violations
    and leaves the run state alone; on a valid command it calls the
    provider exactly once, with the command's path and model, and returns
    what the provider answered. *)
Theorem transcribe_audio_cases :
  forall (command : TranscribeAudioCommand.t)
         (svc : TranscriptionService.t TP) (log : list Call),
    (TranscribeAudioCommand.validate command <> []
     /\ TranscriptionService.transcribe_audio command (mkRun svc log)
        = (Returned
             (AppResult.mk false None "Validation failed"
                (TranscribeAudioCommand.validate command)),
           mkRun svc log))
    \/ (TranscribeAudioCommand.validate command = []
        /\ TranscriptionService.transcribe_audio command (mkRun svc log)
           = (Returned
                (fst (transcribe
                        (TranscriptionService._transcription_provider svc)
                        (TranscribeAudioCommand.audio_file_path command)
                        (TranscribeAudioCommand.model command))),
              mkRun (TranscriptionService.mk
                       (snd (transcribe
                               (TranscriptionService._transcription_provider svc)
                               (TranscribeAudioCommand.audio_file_path command)
                               (TranscribeAudioCommand.model command))))
                    (log ++ [TranscribeCall
                               (TranscribeAudioCommand.audio_file_path command)
                               (TranscribeAudioCommand.model command)])%list)).
Proof.
  intros command svc log. run_service.
  destruct (TranscribeAudioCommand.validate command) as [|e l] eqn:Hv;
    run_service.
  - right. split; [reflexivity|].
    destruct (transcribe (TranscriptionService._transcription_provider svc)
                (TranscribeAudioCommand.audio_file_path command)
                (TranscribeAudioCommand.model command)) as [r tp'].
    reflexivity.
  - left. split; [discriminate | reflexivity].
Qed.

(** X7: [generate_summary] always returns.  On a text with no visible
    character (the empty text included) it returns the validation
    envelope with the text violation and leaves the run state alone; on
    any other text it calls the summarization provider exactly once, with
    the text untrimmed, and returns what the provider answered. *)
Theorem generate_summary_cases :
  forall (command : GenerateSummaryCommand.t) svc log,
    (PyStr.all_space (GenerateSummaryCommand.text command) = true
     /\ AudioProcessingService.generate_summary command (mkRun svc log)
        = (Returned
             (AppResult.mk false None "Validation failed"
                ["Text is required for summarization"]),
           mkRun svc log))
    \/ (PyStr.all_space (GenerateSummaryCommand.text command) = false
        /\ AudioProcessingService.generate_summary command (mkRun svc log)
           = (Returned
                (fst (summarize
                        (AudioProcessingService._summarization_provider svc)
                        (GenerateSummaryCommand.text command))),
              mkRun (AudioProcessingService.mk
                       (AudioProcessingService._transcription_provider svc)
                       (snd (summarize
                               (AudioProcessingService._summarization_provider svc)
                               (GenerateSummaryCommand.text command))))
                    (log ++ [SummarizeCall
                               (GenerateSummaryCommand.text command)])%list)).
Proof.
  intros [text] svc log. cbn [GenerateSummaryCommand.text].
  destruct (PyStr.all_space text) eqn:Ha; [left | right];
    (split; [reflexivity|]); run_service.
  - rewrite (validate_blank_text _ Ha). reflexivity.
  - rewrite (validate_visible_text _ Ha). run_service.
    destruct (summarize (AudioProcessingService._summarization_provider svc)
                text) as [rs sp'].
    reflexivity.
Qed.

End MoreServiceProperties.

Lemma process_audio_file_summarization_fails_witness :
  exists res,
    AudioProcessingService.process_audio_file Fixtures.command
      (mkRun (Fixtures.service (AppResult.ok Fixtures.transcription "")
                Fixtures.api_error) [])
    = (Returned res,
       mkRun (AudioProcessingService.mk
                (Fixtures.called_once (AppResult.ok Fixtures.transcription ""))
                (Mock.mk Fixtures.api_error ["Test transcription text"]))
             [TranscribeCall "/path/to/audio.mp3" (Some "base");
              SummarizeCall "Test transcription text"])
    /\ AppResult.success res = false
    /\ AppResult.value res = None
    /\ AppResult.message res = "Summarization failed: API error"
    /\ AppResult.errors res = ["Invalid API key"].
Proof.
  exact (process_audio_file_summarization_fails Fixtures.command
           (Fixtures.service (AppResult.ok Fixtures.transcription "")
              Fixtures.api_error)
           [] (AppResult.ok Fixtures.transcription "")
           (Fixtures.called_once (AppResult.ok Fixtures.transcription ""))
           Fixtures.transcription Fixtures.api_error
           (Mock.mk Fixtures.api_error ["Test transcription text"])
           eq_refl eq_refl eq_refl eq_refl eq_refl eq_refl eq_refl eq_refl).
Defined.

Lemma process_audio_file_rejects_invalid_command_witness :
  AudioProcessingService.process_audio_file
    (ProcessAudioFileCommand.mk "" (Some "huge") false)
    (mkRun (Fixtures.service Fixtures.file_not_found Fixtures.api_error) [])
  = (Returned
       (AppResult.mk false None "Validation failed"
          ["Audio file path is required";
           "Invalid model: huge. Must be one of: tiny, base, small, medium, large"]),
     mkRun (Fixtures.service Fixtures.file_not_found Fixtures.api_error) []).
Proof.
  refine (process_audio_file_rejects_invalid_command
            (ProcessAudioFileCommand.mk "" (Some "huge") false)
            (mkRun (Fixtures.service Fixtures.file_not_found
                      Fixtures.api_error) [])
            _).
  simpl. discriminate.
Defined.

Lemma process_audio_file_success_is_founded_witness :
  ProcessAudioFileCommand.validate Fixtures.command = []
  /\ AppResult.success
       (fst (transcribe
               (Mock.returning (AppResult.ok Fixtures.transcription ""))
               "/path/to/audio.mp3" (Some "base"))) = true.
Proof.
  assert (Hrun :
    AudioProcessingService.process_audio_file Fixtures.command
      (mkRun (Fixtures.service (AppResult.ok Fixtures.transcription "")
                (AppResult.ok Fixtures.summary "")) [])
    = (Returned
         (AppResult.ok (Some Fixtures.transcription, Some Fixtures.summary)
            "Audio processing completed successfully"),
       mkRun (AudioProcessingService.mk
                (Fixtures.called_once (AppResult.ok Fixtures.transcription ""))
                (Mock.mk (AppResult.ok Fixtures.summary "")
                   ["Test transcription text"]))
             [TranscribeCall "/path/to/audio.mp3" (Some "base");
              SummarizeCall "Test transcription text"]))
    by reflexivity.
  destruct (process_audio_file_success_is_founded _ _ _ _ _ Hrun eq_refl)
    as (Hv & Ht & _).
  exact (conj Hv Ht).
Defined.

(* ===================================================================== *)
(** * infrastructure/output_formatter.py *)

Lemma str_app_assoc (a b c : string) : (a ++ b) ++ c = a ++ (b ++ c).
Proof. induction a as [|x a IH]; simpl; [|rewrite IH]; reflexivity. Qed.

Lemma str_app_nil_r (a : string) : a ++ "" = a.
Proof. induction a as [|x a IH]; simpl; [|rewrite IH]; reflexivity. Qed.

Lemma join_snoc (sep x : string) (l : list string) :
  l <> [] -> Py.join sep (l ++ [x]) = Py.join sep l ++ sep ++ x.
Proof.
  induction l as [|a l IH]; [intros Hl; contradiction Hl; reflexivity|].
  intros _. destruct l as [|b l].
  - reflexivity.
  - change (Py.join sep ((a :: b :: l) ++ [x]))
      with (a ++ sep ++ Py.join sep ((b :: l) ++ [x])).
    rewrite IH by discriminate.
    change (Py.join sep (a :: b :: l)) with (a ++ sep ++ Py.join sep (b :: l)).
    rewrite !str_app_assoc. reflexivity.
Qed.

Lemma append_numbered_eq (items : list string) :
  forall (i : nat) (output : list string),
    OutputFormatter.append_numbered i items output
    = (output ++ OutputFormatter.numbered_from i items)%list.
Proof.
  induction items as [|item rest IH]; intros i output; simpl.
  - rewrite app_nil_r. reflexivity.
  - rewrite IH. unfold Py.append. rewrite <- app_assoc. reflexivity.
Qed.

Lemma append_bulleted_eq (items : list string) :
  forall output : list string,
    OutputFormatter.append_bulleted items output
    = (output ++ map (fun item => ("- " ++ item)%string) items)%list.
Proof.
  induction items as [|item rest IH]; intros output; simpl.
  - rewrite app_nil_r. reflexivity.
  - rewrite IH. unfold Py.append. rewrite <- app_assoc. reflexivity.
Qed.

Lemma numbered_from_length (items : list string) :
  forall i, length (OutputFormatter.numbered_from i items) = length items.
Proof.
  induction items as [|item rest IH]; intros i; simpl;
    [reflexivity | rewrite IH; reflexivity].
Qed.

Lemma numbered_from_nth (items : list string) :
  forall (i k : nat) (item : string),
    nth_error items k = Some item ->
    nth_error (OutputFormatter.numbered_from i items) k
    = Some (Py.str_of_nat (i + k) ++ ". " ++ item).
Proof.
  induction items as [|x rest IH]; intros i k item Hk.
  - destruct k; discriminate Hk.
  - destruct k as [|k]; simpl in *.
    + injection Hk as ->. rewrite Nat.add_0_r. reflexivity.
    + rewrite (IH (S i) k item Hk).
      replace (S i + k) with (i + S k) by lia. reflexivity.
Qed.

(** The console lines without the loop: five head lines, the language
    line if any, twelve fixed lines, the action item block, the rule. *)
Lemma console_output_closed (t : Transcription.t) (s : Summary.t) :
  OutputFormatter.console_output t s
  = ([Py.repeat "=" 80; "TRANSCRIPTION RESULTS"; Py.repeat "=" 80;
      ("File: " ++ Transcription.audio_file_path t)%string;
      ("Model: " ++ Transcription.model_used t)%string]
     ++ (if Py.opt_truthy (Transcription.language t)
         then [("Language: " ++ format_field (Transcription.language t))%string]
         else [])
     ++ [""; "TRANSCRIPTION:"; Py.repeat "-" 80; Transcription.text t; "";
         Py.repeat "=" 80; "SUMMARY"; Py.repeat "=" 80;
         Summary.conversation_summary s; ""; "ACTION ITEMS:";
         Py.repeat "-" 80]
     ++ (if list_truthy (Summary.action_items s)
         then OutputFormatter.numbered_from 1 (Summary.action_items s)
         else ["No action items identified"])
     ++ [Py.repeat "=" 80])%list.
Proof.
  unfold OutputFormatter.console_output, Py.append.
  rewrite append_numbered_eq.
  destruct (Py.opt_truthy (Transcription.language t));
    destruct (list_truthy (Summary.action_items s));
    cbn [app]; repeat rewrite <- app_assoc; reflexivity.
Qed.

Lemma markdown_output_closed (t : Transcription.t) (s : Summary.t) :
  OutputFormatter.markdown_output t s
  = (["# Transcription Results"; ""; "## Metadata";
      ("- **File:** " ++ Transcription.audio_file_path t)%string;
      ("- **Model:** " ++ Transcription.model_used t)%string]
     ++ (if Py.opt_truthy (Transcription.language t)
         then [("- **Language:** " ++ format_field (Transcription.language t))%string]
         else [])
     ++ [""; "## Transcription"; ""; Transcription.text t; "";
         "## Summary"; ""; Summary.conversation_summary s; "";
         "## Action Items"; ""]
     ++ (if list_truthy (Summary.action_items s)
         then map (fun item => ("- " ++ item)%string) (Summary.action_items s)
         else ["- No action items identified"])
     ++ [""])%list.
Proof.
  unfold OutputFormatter.markdown_output, Py.append.
  rewrite append_bulleted_eq.
  destruct (Py.opt_truthy (Transcription.language t));
    destruct (list_truthy (Summary.action_items s));
    cbn [app]; repeat rewrite <- app_assoc; reflexivity.
Qed.

Lemma language_block_length (A : Type) (b : bool) (x : A) :
  length (if b then [x] else []) = if b then 1 else 0.
Proof. destruct b; reflexivity. Qed.

(** In the list of console pieces, action item number k+1 sits right
    after the seventeen fixed pieces (eighteen with a language). *)
Lemma console_output_item_at :
  forall (t : Transcription.t) (s : Summary.t) (k : nat) (item : string),
    nth_error (Summary.action_items s) k = Some item ->
    nth_error (OutputFormatter.console_output t s)
      (17 + OutputFormatter.language_lines t + k)
    = Some (Py.str_of_nat (S k) ++ ". " ++ item).
Proof.
  intros t s k item Hk. rewrite console_output_closed.
  assert (Hne : list_truthy (Summary.action_items s) = true).
  { destruct (Summary.action_items s); [destruct k; discriminate Hk|].
    reflexivity. }
  rewrite Hne. unfold OutputFormatter.language_lines.
  rewrite nth_error_app2 by (cbn [length]; lia). cbn [length].
  rewrite nth_error_app2
    by (rewrite language_block_length;
        destruct (Py.opt_truthy (Transcription.language t)); lia).
  rewrite language_block_length.
  rewrite nth_error_app2
    by (cbn [length];
        destruct (Py.opt_truthy (Transcription.language t)); lia).
  cbn [length].
  replace (17 + (if Py.opt_truthy (Transcription.language t) then 1 else 0)
           + k - 5
           - (if Py.opt_truthy (Transcription.language t) then 1 else 0) - 12)
    with k by (destruct (Py.opt_truthy (Transcription.language t)); lia).
  rewrite nth_error_app1.
  - apply (numbered_from_nth _ 1 k item Hk).
  - rewrite numbered_from_length. apply nth_error_Some. congruence.
Qed.

(** The number of console pieces, and the placeholder among them. *)
Lemma console_output_size :
  forall (t : Transcription.t) (s : Summary.t),
    length (OutputFormatter.console_output t s)
    = 18 + OutputFormatter.language_lines t
      + Nat.max 1 (length (Summary.action_items s))
    /\ (Summary.action_items s = [] ->
        nth_error (OutputFormatter.console_output t s)
          (17 + OutputFormatter.language_lines t)
        = Some "No action items identified").
Proof.
  intros t s. rewrite console_output_closed.
  unfold OutputFormatter.language_lines. split.
  - rewrite !length_app, language_block_length. cbn [length].
    destruct (Summary.action_items s) as [|x l]; cbn [list_truthy length].
    + destruct (Py.opt_truthy (Transcription.language t)); reflexivity.
    + rewrite numbered_from_length. cbn [length].
      destruct (Py.opt_truthy (Transcription.language t)); lia.
  - intros ->. cbn [list_truthy].
    destruct (Py.opt_truthy (Transcription.language t)); reflexivity.
Qed.


(** ** The returned text *)

Lemma join_app (sep : string) (l1 l2 : list string) :
  l1 <> [] -> l2 <> [] ->
  Py.join sep (l1 ++ l2) = Py.join sep l1 ++ sep ++ Py.join sep l2.
Proof.
  induction l1 as [|a l1 IH]; [intros H1; contradiction H1; reflexivity|].
  intros _ H2. destruct l1 as [|b l1].
  - destruct l2 as [|c l2]; [contradiction H2; reflexivity | reflexivity].
  - change (Py.join sep ((a :: b :: l1) ++ l2))
      with (a ++ sep ++ Py.join sep ((b :: l1) ++ l2)).
    rewrite IH by (discriminate || exact H2).
    change (Py.join sep (a :: b :: l1)) with (a ++ sep ++ Py.join sep (b :: l1)).
    rewrite !str_app_assoc. reflexivity.
Qed.

(** A newline starts a string exactly when its first character is one. *)
Lemma prefix_nl (c : ascii) (x : string) :
  String.prefix Py.nl (String c x) = Ascii.eqb c (ascii_of_nat 10).
Proof.
  unfold Py.nl. cbn [String.prefix].
  destruct (ascii_dec (ascii_of_nat 10) c) as [<- | Hne].
  - destruct x; rewrite Ascii.eqb_refl; reflexivity.
  - symmetry. apply Ascii.eqb_neq. congruence.
Qed.

Lemma no_nl_cons (c : ascii) (x : string) :
  PyText.contains Py.nl (String c x) = false
  <-> Ascii.eqb c (ascii_of_nat 10) = false
      /\ PyText.contains Py.nl x = false.
Proof.
  cbn [PyText.contains]. rewrite prefix_nl. apply orb_false_iff.
Qed.

Lemma no_nl_app (a b : string) :
  PyText.contains Py.nl a = false ->
  PyText.contains Py.nl b = false ->
  PyText.contains Py.nl (a ++ b) = false.
Proof.
  induction a as [|c a IH]; intros Ha Hb; [exact Hb|].
  apply no_nl_cons in Ha as [Hc Ha].
  change (String c a ++ b) with (String c (a ++ b)).
  apply no_nl_cons. split; [exact Hc | exact (IH Ha Hb)].
Qed.

Lemma no_nl_digits (d : Decimal.uint) :
  PyText.contains Py.nl (NilEmpty.string_of_uint d) = false.
Proof.
  induction d; cbn [NilEmpty.string_of_uint];
    [reflexivity | apply no_nl_cons; split; [reflexivity | assumption] ..].
Qed.

Lemma no_nl_str_of_nat (i : nat) :
  PyText.contains Py.nl (Py.str_of_nat i) = false.
Proof.
  unfold Py.str_of_nat, NilZero.string_of_uint.
  destruct (Nat.to_uint i) eqn:E; try (rewrite <- E); try reflexivity;
    apply no_nl_digits.
Qed.

(** Reading on over a piece without newline only grows the current
    piece. *)
Lemma split_from_no_nl (x : string) :
  forall cur rest : string,
    PyText.contains Py.nl x = false ->
    PyText.split_from Py.nl 0 cur (x ++ rest)
    = PyText.split_from Py.nl 0 (cur ++ x) rest.
Proof.
  induction x as [|c x IH]; intros cur rest Hx.
  - rewrite str_app_nil_r. reflexivity.
  - apply no_nl_cons in Hx as [Hc Hx].
    change (String c x ++ rest) with (String c (x ++ rest)).
    cbn [PyText.split_from]. rewrite prefix_nl, Hc.
    rewrite (IH _ _ Hx). rewrite str_app_assoc. reflexivity.
Qed.

Lemma split_from_nl_head (cur rest : string) :
  PyText.split_from Py.nl 0 cur (Py.nl ++ rest)
  = cur :: PyText.split_from Py.nl 0 "" rest.
Proof.
  change (Py.nl ++ rest) with (String (ascii_of_nat 10) rest).
  cbn [PyText.split_from]. rewrite prefix_nl, Ascii.eqb_refl. reflexivity.
Qed.

(** Splitting at newlines undoes joining with newlines, for pieces that
    hold none. *)
Lemma split_join_nl (l : list string) :
  l <> [] ->
  Forall (fun x => PyText.contains Py.nl x = false) l ->
  PyText.split Py.nl (Py.join Py.nl l) = l.
Proof.
  unfold PyText.split.
  induction l as [|x l IH]; [intros Hl; contradiction Hl; reflexivity|].
  intros _ Hall. inversion Hall as [|? ? Hx Hl]; subst.
  destruct l as [|y l].
  - cbn [Py.join]. rewrite <- (str_app_nil_r x) at 1.
    rewrite (split_from_no_nl x "" "" Hx). reflexivity.
  - change (Py.join Py.nl (x :: y :: l))
      with (x ++ Py.nl ++ Py.join Py.nl (y :: l)).
    rewrite (split_from_no_nl x "" _ Hx). cbn [String.append].
    rewrite split_from_nl_head. rewrite IH by (discriminate || exact Hl).
    reflexivity.
Qed.

Lemma numbered_from_no_nl (items : list string) :
  forall i : nat,
    Forall (fun x => PyText.contains Py.nl x = false) items ->
    Forall (fun x => PyText.contains Py.nl x = false)
      (OutputFormatter.numbered_from i items).
Proof.
  induction items as [|item rest IH]; intros i Hall;
    cbn [OutputFormatter.numbered_from]; [constructor|].
  inversion Hall as [|? ? Hx Hl]; subst. constructor; [|apply IH; exact Hl].
  apply no_nl_app; [apply no_nl_str_of_nat|].
  apply no_nl_app; [reflexivity | exact Hx].
Qed.

(** When no field holds a newline, no console piece does. *)
Lemma console_output_no_nl (t : Transcription.t) (s : Summary.t) :
  PyText.contains Py.nl (Transcription.audio_file_path t) = false ->
  PyText.contains Py.nl (Transcription.model_used t) = false ->
  PyText.contains Py.nl (format_field (Transcription.language t)) = false ->
  PyText.contains Py.nl (Transcription.text t) = false ->
  PyText.contains Py.nl (Summary.conversation_summary s) = false ->
  Forall (fun x => PyText.contains Py.nl x = false) (Summary.action_items s) ->
  Forall (fun x => PyText.contains Py.nl x = false)
    (OutputFormatter.console_output t s).
Proof.
  intros Hp Hm Hl Ht Hs Hi. rewrite console_output_closed.
  repeat (apply Forall_app; split).
  - repeat constructor; try (apply no_nl_app; [reflexivity | assumption]).
  - destruct (Py.opt_truthy (Transcription.language t)); repeat constructor.
    apply no_nl_app; [reflexivity | assumption].
  - repeat constructor; assumption.
  - destruct (list_truthy (Summary.action_items s));
      [apply numbered_from_no_nl; exact Hi | repeat constructor].
  - repeat constructor.
Qed.

Lemma console_output_not_nil (t : Transcription.t) (s : Summary.t) :
  OutputFormatter.console_output t s <> [].
Proof. rewrite console_output_closed. discriminate. Qed.

(** X11: whatever newlines the fields hold, the text that
    [format_console_output] returns ends with "ACTION ITEMS:", a rule of
    eighty dashes, the action item lines and a rule of eighty "=", one
    newline between each: the action item lines are the items in their
    order, item number k+1 printed as "k+1. item", or the single line "No
    action items identified" when there is no item. *)
Theorem console_action_items_numbered :
  forall (t : Transcription.t) (s : Summary.t),
    exists (head : string) (lines : list string),
      OutputFormatter.format_console_output t s
      = head ++ Py.nl ++ "ACTION ITEMS:" ++ Py.nl ++ Py.repeat "-" 80
        ++ Py.nl ++ Py.join Py.nl lines ++ Py.nl ++ Py.repeat "=" 80
      /\ (Summary.action_items s = [] ->
          lines = ["No action items identified"])
      /\ (Summary.action_items s <> [] ->
          length lines = length (Summary.action_items s))
      /\ (forall (k : nat) (item : string),
            nth_error (Summary.action_items s) k = Some item ->
            nth_error lines k = Some (Py.str_of_nat (S k) ++ ". " ++ item)).
Proof.
  intros t s.
  exists (Py.join Py.nl
            ([Py.repeat "=" 80; "TRANSCRIPTION RESULTS"; Py.repeat "=" 80;
              ("File: " ++ Transcription.audio_file_path t)%string;
              ("Model: " ++ Transcription.model_used t)%string]
             ++ (if Py.opt_truthy (Transcription.language t)
                 then [("Language: "
                        ++ format_field (Transcription.language t))%string]
                 else [])
             ++ [""; "TRANSCRIPTION:"; Py.repeat "-" 80; Transcription.text t;
                 ""; Py.repeat "=" 80; "SUMMARY"; Py.repeat "=" 80;
                 Summary.conversation_summary s; ""])%list).
  exists (if list_truthy (Summary.action_items s)
          then OutputFormatter.numbered_from 1 (Summary.action_items s)
          else ["No action items identified"]).
  split.
  - unfold OutputFormatter.format_console_output.
    rewrite console_output_closed.
    set (lines := if list_truthy (Summary.action_items s)
                  then OutputFormatter.numbered_from 1 (Summary.action_items s)
                  else ["No action items identified"]).
    assert (Hlines : lines <> []).
    { unfold lines. destruct (Summary.action_items s); discriminate. }
    set (lang := if Py.opt_truthy (Transcription.language t)
                 then [("Language: "
                        ++ format_field (Transcription.language t))%string]
                 else []).
    replace ([Py.repeat "=" 80; "TRANSCRIPTION RESULTS"; Py.repeat "=" 80;
              ("File: " ++ Transcription.audio_file_path t)%string;
              ("Model: " ++ Transcription.model_used t)%string]
             ++ lang
             ++ [""; "TRANSCRIPTION:"; Py.repeat "-" 80; Transcription.text t;
                 ""; Py.repeat "=" 80; "SUMMARY"; Py.repeat "=" 80;
                 Summary.conversation_summary s; ""; "ACTION ITEMS:";
                 Py.repeat "-" 80]
             ++ lines ++ [Py.repeat "=" 80])%list
      with (([Py.repeat "=" 80; "TRANSCRIPTION RESULTS"; Py.repeat "=" 80;
               ("File: " ++ Transcription.audio_file_path t)%string;
               ("Model: " ++ Transcription.model_used t)%string]
              ++ lang
              ++ [""; "TRANSCRIPTION:"; Py.repeat "-" 80;
                  Transcription.text t; ""; Py.repeat "=" 80; "SUMMARY";
                  Py.repeat "=" 80; Summary.conversation_summary s; ""])
             ++ ["ACTION ITEMS:"; Py.repeat "-" 80]
             ++ lines ++ [Py.repeat "=" 80])%list
      by (rewrite <- !app_assoc; reflexivity).
    rewrite join_app; [|discriminate | discriminate].
    rewrite (join_app Py.nl ["ACTION ITEMS:"; Py.repeat "-" 80]);
      [|discriminate | destruct lines; discriminate].
    rewrite join_snoc by exact Hlines.
    change (Py.join Py.nl ["ACTION ITEMS:"; Py.repeat "-" 80])
      with ("ACTION ITEMS:" ++ Py.nl ++ Py.repeat "-" 80).
    rewrite !str_app_assoc. reflexivity.
  - split; [intros ->; reflexivity|]. split.
    + intros Hne. destruct (Summary.action_items s) as [|x l] eqn:E;
        [contradiction Hne; reflexivity|].
      cbn [list_truthy]. apply numbered_from_length.
    + intros k item Hk.
      destruct (Summary.action_items s) as [|x l] eqn:E;
        [destruct k; discriminate Hk|].
      cbn [list_truthy]. apply (numbered_from_nth _ 1 k item Hk).
Qed.

Lemma console_action_items_numbered_witness :
  exists (head : string) (lines : list string),
    OutputFormatter.format_console_output Fixtures.transcription
      Fixtures.summary
    = head ++ Py.nl ++ "ACTION ITEMS:" ++ Py.nl ++ Py.repeat "-" 80
      ++ Py.nl ++ Py.join Py.nl lines ++ Py.nl ++ Py.repeat "=" 80
    /\ length lines = 2
    /\ nth_error lines 1 = Some "2. Action 2".
Proof.
  destruct (console_action_items_numbered Fixtures.transcription
              Fixtures.summary) as (head & lines & Heq & _ & Hlen & Hnth).
  exists head, lines. split; [exact Heq|]. split.
  - apply Hlen. discriminate.
  - exact (Hnth 1 "Action 2" eq_refl).
Defined.

(** X12: when no field holds a newline (path, model, language, text,
    summary, and every action item), the text that
    [format_console_output] returns, split at its newlines, has eighteen
    fixed lines, one more when a language is printed, and one line per
    action item or one placeholder line; action item number k+1 is the
    line "k+1. item" right after the seventeen fixed lines (eighteen with
    a language), and without items that line is "No action items
    identified". *)
Theorem console_output_length :
  forall (t : Transcription.t) (s : Summary.t),
    PyText.contains Py.nl (Transcription.audio_file_path t) = false ->
    PyText.contains Py.nl (Transcription.model_used t) = false ->
    PyText.contains Py.nl (format_field (Transcription.language t)) = false ->
    PyText.contains Py.nl (Transcription.text t) = false ->
    PyText.contains Py.nl (Summary.conversation_summary s) = false ->
    Forall (fun x => PyText.contains Py.nl x = false)
      (Summary.action_items s) ->
    length (PyText.split Py.nl (OutputFormatter.format_console_output t s))
    = 18 + OutputFormatter.language_lines t
      + Nat.max 1 (length (Summary.action_items s))
    /\ (forall (k : nat) (item : string),
          nth_error (Summary.action_items s) k = Some item ->
          nth_error
            (PyText.split Py.nl (OutputFormatter.format_console_output t s))
            (17 + OutputFormatter.language_lines t + k)
          = Some (Py.str_of_nat (S k) ++ ". " ++ item))
    /\ (Summary.action_items s = [] ->
        nth_error
          (PyText.split Py.nl (OutputFormatter.format_console_output t s))
          (17 + OutputFormatter.language_lines t)
        = Some "No action items identified").
Proof.
  intros t s Hp Hm Hl Ht Hs Hi.
  unfold OutputFormatter.format_console_output.
  rewrite (split_join_nl _ (console_output_not_nil t s)
             (console_output_no_nl t s Hp Hm Hl Ht Hs Hi)).
  split; [exact (proj1 (console_output_size t s))|].
  split; [intros k item; apply console_output_item_at|].
  exact (proj2 (console_output_size t s)).
Qed.

Lemma console_output_length_witness :
  length (PyText.split Py.nl
            (OutputFormatter.format_console_output Fixtures.transcription
               Fixtures.summary)) = 20
  /\ nth_error
       (PyText.split Py.nl
          (OutputFormatter.format_console_output Fixtures.transcription
             Fixtures.summary)) 18
     = Some "2. Action 2".
Proof.
  assert (Hi : Forall (fun x => PyText.contains Py.nl x = false)
                 (Summary.action_items Fixtures.summary))
    by (repeat constructor).
  destruct (console_output_length Fixtures.transcription Fixtures.summary
              eq_refl eq_refl eq_refl eq_refl eq_refl Hi)
    as (Hlen & Hitem & _).
  split; [exact Hlen | exact (Hitem 1 "Action 2" eq_refl)].
Defined.

(** X14: whatever newlines the fields hold, the text that
    [save_to_markdown] writes ends with the heading "## Action Items", an
    empty line, the action items in their order, each as "- item" (or the
    single line "- No action items identified" when there is none), and a
    final newline. *)
Theorem markdown_action_items_bulleted :
  forall (t : Transcription.t) (s : Summary.t),
    exists head : string,
      OutputFormatter.markdown_text t s
      = head ++ Py.nl ++ "## Action Items" ++ Py.nl ++ Py.nl
        ++ Py.join Py.nl
             (match Summary.action_items s with
              | [] => ["- No action items identified"]
              | _ :: _ =>
                  map (fun item => ("- " ++ item)%string)
                    (Summary.action_items s)
              end)
        ++ Py.nl.
Proof.
  intros t s.
  exists (Py.join Py.nl
            (["# Transcription Results"; ""; "## Metadata";
              ("- **File:** " ++ Transcription.audio_file_path t)%string;
              ("- **Model:** " ++ Transcription.model_used t)%string]
             ++ (if Py.opt_truthy (Transcription.language t)
                 then [("- **Language:** "
                        ++ format_field (Transcription.language t))%string]
                 else [])
             ++ [""; "## Transcription"; ""; Transcription.text t; "";
                 "## Summary"; ""; Summary.conversation_summary s; ""])%list).
  unfold OutputFormatter.markdown_text. rewrite markdown_output_closed.
  set (bullets := match Summary.action_items s with
                  | [] => ["- No action items identified"]
                  | _ :: _ =>
                      map (fun item => ("- " ++ item)%string)
                        (Summary.action_items s)
                  end).
  assert (Hb : (if list_truthy (Summary.action_items s)
                then map (fun item => ("- " ++ item)%string)
                       (Summary.action_items s)
                else ["- No action items identified"]) = bullets).
  { unfold bullets. destruct (Summary.action_items s); reflexivity. }
  rewrite Hb.
  assert (Hne : bullets <> []).
  { unfold bullets. destruct (Summary.action_items s); discriminate. }
  set (lang := if Py.opt_truthy (Transcription.language t)
               then [("- **Language:** "
                      ++ format_field (Transcription.language t))%string]
               else []).
  replace (["# Transcription Results"; ""; "## Metadata";
            ("- **File:** " ++ Transcription.audio_file_path t)%string;
            ("- **Model:** " ++ Transcription.model_used t)%string]
           ++ lang
           ++ [""; "## Transcription"; ""; Transcription.text t; "";
               "## Summary"; ""; Summary.conversation_summary s; "";
               "## Action Items"; ""]
           ++ bullets ++ [""])%list
    with ((["# Transcription Results"; ""; "## Metadata";
             ("- **File:** " ++ Transcription.audio_file_path t)%string;
             ("- **Model:** " ++ Transcription.model_used t)%string]
            ++ lang
            ++ [""; "## Transcription"; ""; Transcription.text t; "";
                "## Summary"; ""; Summary.conversation_summary s; ""])
           ++ ["## Action Items"; ""] ++ bullets ++ [""])%list
    by (rewrite <- !app_assoc; reflexivity).
  rewrite join_app; [|discriminate | discriminate].
  rewrite (join_app Py.nl ["## Action Items"; ""]);
    [|discriminate | destruct bullets; discriminate].
  rewrite join_snoc by exact Hne.
  change (Py.join Py.nl ["## Action Items"; ""])
    with ("## Action Items" ++ Py.nl ++ "").
  rewrite !str_app_assoc. cbn [String.append]. rewrite str_app_nil_r.
  reflexivity.
Qed.

(* ===================================================================== *)
(** * infrastructure/whisper_provider.py *)

(** ** What [strip] leaves *)

Lemma rstrip_idempotent (s : string) :
  PyStr.rstrip (PyStr.rstrip s) = PyStr.rstrip s.
Proof.
  induction s as [|c s IH]; [reflexivity|].
  cbn [PyStr.rstrip]. destruct (PyStr.rstrip s) as [|d r] eqn:Hr.
  - destruct (PyStr.isspace c) eqn:Hc; [reflexivity|].
    cbn [PyStr.rstrip]. rewrite Hc. reflexivity.
  - change (PyStr.rstrip (String c (String d r)))
      with (match PyStr.rstrip (String d r) with
            | EmptyString =>
                if PyStr.isspace c then EmptyString else String c EmptyString
            | String a r0 => String c (String a r0)
            end).
    rewrite IH. reflexivity.
Qed.

Lemma rstrip_keeps_head (c : ascii) (r : string) :
  PyStr.isspace c = false ->
  exists r', PyStr.rstrip (String c r) = String c r'.
Proof.
  intros Hc. cbn [PyStr.rstrip]. destruct (PyStr.rstrip r).
  - rewrite Hc. eexists. reflexivity.
  - eexists. reflexivity.
Qed.

Lemma lstrip_head (s : string) :
  PyStr.lstrip s = ""
  \/ exists c r, PyStr.lstrip s = String c r /\ PyStr.isspace c = false.
Proof.
  destruct (PyStr.all_space s) eqn:Ha.
  - left. apply lstrip_all_space. exact Ha.
  - right. apply lstrip_not_all_space. exact Ha.
Qed.

(** A stripped string is empty or starts with a visible character. *)
Lemma strip_head (s : string) :
  PyStr.strip s = ""
  \/ exists c r, PyStr.strip s = String c r /\ PyStr.isspace c = false.
Proof.
  unfold PyStr.strip. destruct (lstrip_head s) as [-> | (c & r & -> & Hc)].
  - left. reflexivity.
  - right. destruct (rstrip_keeps_head c r Hc) as [r' Hr'].
    exists c, r'. split; assumption.
Qed.

Lemma strip_idempotent (s : string) :
  PyStr.strip (PyStr.strip s) = PyStr.strip s.
Proof.
  destruct (strip_head s) as [-> | (c & r & Hs & Hc)]; [reflexivity|].
  unfold PyStr.strip at 1. rewrite Hs. cbn [PyStr.lstrip]. rewrite Hc.
  rewrite <- Hs. unfold PyStr.strip. apply rstrip_idempotent.
Qed.

Lemma strip_visible (s : string) :
  PyStr.strip s <> "" -> PyStr.all_space (PyStr.strip s) = false.
Proof.
  intros Hne. destruct (strip_head s) as [He | (c & r & -> & Hc)];
    [contradiction|].
  cbn [PyStr.all_space]. rewrite Hc. reflexivity.
Qed.

(** ** The provider *)

Section WhisperProperties.

Context {Model : Type}.

Implicit Types (engine : WhisperTranscriptionProvider.Engine Model)
               (self : WhisperTranscriptionProvider.t Model).

Lemma cache_get_None_not_in (cache : list (string * Model)) (key : string) :
  WhisperTranscriptionProvider.cache_get cache key = None ->
  ~ In key (map fst cache).
Proof.
  induction cache as [|[k v] l IH]; cbn; [intros _ []|].
  destruct (String.eqb key k) eqn:E; [discriminate|].
  intros Hg [Hk | Hk].
  - subst k. rewrite String.eqb_refl in E. discriminate E.
  - exact (IH Hg Hk).
Qed.

Lemma cache_get_after_set (cache : list (string * Model)) (key : string)
    (m : Model) :
  WhisperTranscriptionProvider.cache_get cache key = None ->
  WhisperTranscriptionProvider.cache_get
    (WhisperTranscriptionProvider.cache_set cache key m) key = Some m.
Proof.
  unfold WhisperTranscriptionProvider.cache_set.
  induction cache as [|[k v] l IH]; cbn.
  - intros _. rewrite String.eqb_refl. reflexivity.
  - destruct (String.eqb key k); [discriminate | exact IH].
Qed.

(** What a successful [run_and_wrap] tells. *)
Lemma run_and_wrap_success engine (m : Model) (path name : string) :
  AppResult.success
    (WhisperTranscriptionProvider.run_and_wrap engine m path name) = true ->
  exists res,
    WhisperTranscriptionProvider.model_transcribe engine m path = inr res
    /\ PyStr.strip (WhisperTranscriptionProvider.result_text res) <> ""
    /\ WhisperTranscriptionProvider.run_and_wrap engine m path name
       = AppResult.ok
           (Transcription.mk
              (PyStr.strip (WhisperTranscriptionProvider.result_text res))
              path name
              (WhisperTranscriptionProvider.result_language res) None)
           "Transcription completed successfully".
Proof.
  unfold WhisperTranscriptionProvider.run_and_wrap.
  destruct (WhisperTranscriptionProvider.model_transcribe engine m path)
    as [e | res]; [discriminate|].
  unfold Transcription.init.
  destruct (PyStr.strip (WhisperTranscriptionProvider.result_text res))
    as [|c r] eqn:Hs; [discriminate|].
  cbn [PyStr.truthy negb].
  destruct path as [|b path]; cbn [PyStr.truthy negb];
    [intros Hs'; cbn in Hs'; discriminate Hs'|].
  intros _. exists res. rewrite Hs. repeat split. discriminate.
Qed.

Lemma run_and_wrap_well_formed engine (m : Model) (path name : string) :
  AppResult.invariant
    (WhisperTranscriptionProvider.run_and_wrap engine m path name).
Proof.
  unfold WhisperTranscriptionProvider.run_and_wrap,
    WhisperTranscriptionProvider.transcription_failed.
  destruct (WhisperTranscriptionProvider.model_transcribe engine m path)
    as [e | res]; [apply fail_is_well_formed|].
  destruct (Transcription.init _ _ _ _ _);
    [apply ok_is_well_formed | apply fail_is_well_formed].
Qed.

(** X15: whatever the world does, the envelope the Whisper provider
    returns satisfies the envelope invariant. *)
Theorem whisper_envelope_is_well_formed :
  forall engine self (audio_file_path : string) (model : option string),
    AppResult.invariant
      (fst (WhisperTranscriptionProvider.transcribe engine self
              audio_file_path model)).
Proof.
  intros engine self path model.
  unfold WhisperTranscriptionProvider.transcribe,
    WhisperTranscriptionProvider.transcription_failed.
  destruct (WhisperTranscriptionProvider.path_exists engine path);
    cbn [negb fst]; [|apply fail_is_well_formed].
  destruct (WhisperTranscriptionProvider.import_whisper engine);
    cbn [fst]; try apply fail_is_well_formed.
  destruct (WhisperTranscriptionProvider.cache_get _ _);
    cbn [fst]; [apply run_and_wrap_well_formed|].
  destruct (WhisperTranscriptionProvider.load_model engine _);
    cbn [fst]; [apply fail_is_well_formed | apply run_and_wrap_well_formed].
Qed.

(** What a successful envelope of the provider tells; shared below. *)
Lemma whisper_success_facts :
  forall engine self (audio_file_path : string) (model : option string)
         (r : AppResult.t Transcription.t) self',
    WhisperTranscriptionProvider.transcribe engine self audio_file_path model
    = (r, self') ->
    AppResult.success r = true ->
    exists t,
      r = AppResult.ok t "Transcription completed successfully"
      /\ WhisperTranscriptionProvider.path_exists engine audio_file_path = true
      /\ Transcription.audio_file_path t = audio_file_path
      /\ Transcription.model_used t = PyText.or_else model "base"
      /\ Transcription.duration_seconds t = None
      /\ Transcription.text t <> ""
      /\ PyStr.strip (Transcription.text t) = Transcription.text t
      /\ PyStr.all_space (Transcription.text t) = false
      /\ WhisperTranscriptionProvider.cache_get
           (WhisperTranscriptionProvider._model_cache self')
           (Transcription.model_used t) <> None.
Proof.
  intros engine self path model r self'.
  unfold WhisperTranscriptionProvider.transcribe,
    WhisperTranscriptionProvider.transcription_failed.
  destruct (WhisperTranscriptionProvider.path_exists engine path);
    cbn [negb]; [|intros [= <- _] Hs; cbn in Hs; discriminate Hs].
  destruct (WhisperTranscriptionProvider.import_whisper engine);
    try (intros [= <- _] Hs; cbn in Hs; discriminate Hs).
  destruct (WhisperTranscriptionProvider.cache_get
              (WhisperTranscriptionProvider._model_cache self)
              (PyText.or_else model "base")) as [m|] eqn:Hc.
  - intros [= <- <-] Hs.
    destruct (run_and_wrap_success engine m path _ Hs) as (res & _ & Hne & ->).
    eexists. split; [reflexivity|]. cbn.
    repeat split; try assumption.
    + apply strip_idempotent.
    + apply strip_visible. exact Hne.
    + rewrite Hc. discriminate.
  - destruct (WhisperTranscriptionProvider.load_model engine _) as [e | m];
      [intros [= <- _] Hs; cbn in Hs; discriminate Hs|].
    intros [= <- <-] Hs.
    destruct (run_and_wrap_success engine m path _ Hs) as (res & _ & Hne & ->).
    eexists. split; [reflexivity|]. cbn.
    repeat split; try assumption.
    + apply strip_idempotent.
    + apply strip_visible. exact Hne.
    + unfold WhisperTranscriptionProvider.cache_set.
      clear Hc. induction (WhisperTranscriptionProvider._model_cache self)
        as [|[k v] l IH]; cbn.
      * rewrite String.eqb_refl. discriminate.
      * destruct (String.eqb (PyText.or_else model "base") k);
          [discriminate | exact IH].
Qed.

(** Where the transcription of a successful envelope comes from. *)
Lemma whisper_success_origin :
  forall engine self (audio_file_path : string) (model : option string)
         (r : AppResult.t Transcription.t) self',
    WhisperTranscriptionProvider.transcribe engine self audio_file_path model
    = (r, self') ->
    AppResult.success r = true ->
    exists (m : Model) (res : WhisperTranscriptionProvider.Result),
      (WhisperTranscriptionProvider.cache_get
         (WhisperTranscriptionProvider._model_cache self)
         (PyText.or_else model "base") = Some m
       \/ (WhisperTranscriptionProvider.cache_get
             (WhisperTranscriptionProvider._model_cache self)
             (PyText.or_else model "base") = None
           /\ WhisperTranscriptionProvider.load_model engine
                (PyText.or_else model "base") = inr m))
      /\ WhisperTranscriptionProvider.model_transcribe engine m
           audio_file_path = inr res
      /\ r = AppResult.ok
               (Transcription.mk
                  (PyStr.strip (WhisperTranscriptionProvider.result_text res))
                  audio_file_path (PyText.or_else model "base")
                  (WhisperTranscriptionProvider.result_language res) None)
               "Transcription completed successfully"
      /\ WhisperTranscriptionProvider.cache_get
           (WhisperTranscriptionProvider._model_cache self')
           (PyText.or_else model "base") = Some m.
Proof.
  intros engine self path model r self'.
  unfold WhisperTranscriptionProvider.transcribe,
    WhisperTranscriptionProvider.transcription_failed.
  destruct (WhisperTranscriptionProvider.path_exists engine path);
    cbn [negb]; [|intros [= <- _] Hs; cbn in Hs; discriminate Hs].
  destruct (WhisperTranscriptionProvider.import_whisper engine);
    try (intros [= <- _] Hs; cbn in Hs; discriminate Hs).
  destruct (WhisperTranscriptionProvider.cache_get
              (WhisperTranscriptionProvider._model_cache self)
              (PyText.or_else model "base")) as [m|] eqn:Hc.
  - intros [= <- <-] Hs.
    destruct (run_and_wrap_success engine m path _ Hs) as (res & Hr & _ & ->).
    exists m, res. split; [left; reflexivity|]. split; [exact Hr|].
    split; [reflexivity | exact Hc].
  - destruct (WhisperTranscriptionProvider.load_model engine _) as [e | m]
      eqn:Hl; [intros [= <- _] Hs; cbn in Hs; discriminate Hs|].
    intros [= <- <-] Hs.
    destruct (run_and_wrap_success engine m path _ Hs) as (res & Hr & _ & ->).
    exists m, res. split; [right; split; reflexivity|].
    split; [exact Hr|]. split; [reflexivity|].
    cbn [WhisperTranscriptionProvider._model_cache].
    apply cache_get_after_set. exact Hc.
Qed.

(** X16: a successful envelope of the Whisper provider holds the
    transcription of an existing file made by the model of the requested
    name ("base" when none, or the empty name, was asked), which was
    cached or has just been loaded: its text is the text that model
    returned for the file, stripped, and its language is the one the
    model returned; the text is not empty and has a visible character,
    there is no duration, and the model is in the cache afterwards. *)
Theorem whisper_success_is_sound :
  forall engine self (audio_file_path : string) (model : option string)
         (r : AppResult.t Transcription.t) self',
    WhisperTranscriptionProvider.transcribe engine self audio_file_path model
    = (r, self') ->
    AppResult.success r = true ->
    exists (m : Model) (res : WhisperTranscriptionProvider.Result),
      WhisperTranscriptionProvider.path_exists engine audio_file_path = true
      /\ (WhisperTranscriptionProvider.cache_get
            (WhisperTranscriptionProvider._model_cache self)
            (PyText.or_else model "base") = Some m
          \/ (WhisperTranscriptionProvider.cache_get
                (WhisperTranscriptionProvider._model_cache self)
                (PyText.or_else model "base") = None
              /\ WhisperTranscriptionProvider.load_model engine
                   (PyText.or_else model "base") = inr m))
      /\ WhisperTranscriptionProvider.model_transcribe engine m
           audio_file_path = inr res
      /\ r = AppResult.ok
               (Transcription.mk
                  (PyStr.strip (WhisperTranscriptionProvider.result_text res))
                  audio_file_path (PyText.or_else model "base")
                  (WhisperTranscriptionProvider.result_language res) None)
               "Transcription completed successfully"
      /\ PyStr.strip (WhisperTranscriptionProvider.result_text res) <> ""
      /\ PyStr.all_space
           (PyStr.strip (WhisperTranscriptionProvider.result_text res))
         = false
      /\ WhisperTranscriptionProvider.cache_get
           (WhisperTranscriptionProvider._model_cache self')
           (PyText.or_else model "base") = Some m.
Proof.
  intros engine self path model r self' Hrun Hs.
  destruct (whisper_success_origin engine self path model r self' Hrun Hs)
    as (m & res & Hm & Hres & Hr & Hcache).
  destruct (whisper_success_facts engine self path model r self' Hrun Hs)
    as (t & Ht & Hex & _ & _ & _ & Hne & _ & Hvis & _).
  assert (Htext : Transcription.text t
                  = PyStr.strip (WhisperTranscriptionProvider.result_text res)).
  { rewrite Hr in Ht. injection Ht as <-. reflexivity. }
  rewrite Htext in Hne, Hvis.
  exists m, res. repeat split; assumption.
Qed.


(** X17: one call changes the model cache in one way at most: it adds,
    at the end, the requested model under its name, and only when that
    name was not cached and the engine loaded the model; so names that
    are cached once stay cached once. *)
Theorem whisper_cache_discipline :
  forall engine self (audio_file_path : string) (model : option string),
    (WhisperTranscriptionProvider._model_cache
       (snd (WhisperTranscriptionProvider.transcribe engine self
               audio_file_path model))
     = WhisperTranscriptionProvider._model_cache self
     \/ (WhisperTranscriptionProvider.cache_get
           (WhisperTranscriptionProvider._model_cache self)
           (PyText.or_else model "base") = None
         /\ exists m,
              WhisperTranscriptionProvider.load_model engine
                (PyText.or_else model "base") = inr m
              /\ WhisperTranscriptionProvider._model_cache
                   (snd (WhisperTranscriptionProvider.transcribe engine self
                           audio_file_path model))
                 = (WhisperTranscriptionProvider._model_cache self
                    ++ [(PyText.or_else model "base", m)])%list))
    /\ (NoDup (map fst (WhisperTranscriptionProvider._model_cache self)) ->
        NoDup (map fst
                 (WhisperTranscriptionProvider._model_cache
                    (snd (WhisperTranscriptionProvider.transcribe engine self
                            audio_file_path model))))).
Proof.
  intros engine self path model.
  unfold WhisperTranscriptionProvider.transcribe.
  destruct (WhisperTranscriptionProvider.path_exists engine path);
    cbn [negb snd]; [|split; [left; reflexivity | trivial]].
  destruct (WhisperTranscriptionProvider.import_whisper engine);
    cbn [snd]; try (split; [left; reflexivity | trivial]).
  destruct (WhisperTranscriptionProvider.cache_get
              (WhisperTranscriptionProvider._model_cache self)
              (PyText.or_else model "base")) as [m|] eqn:Hc;
    cbn [snd]; [split; [left; reflexivity | trivial]|].
  destruct (WhisperTranscriptionProvider.load_model engine _) as [e | m] eqn:Hl;
    cbn [snd]; [split; [left; reflexivity | trivial]|].
  cbn [WhisperTranscriptionProvider._model_cache].
  unfold WhisperTranscriptionProvider.cache_set. split.
  - right. split; [reflexivity|]. exists m. split; reflexivity.
  - intros Hnd. rewrite map_app. cbn [map fst].
    apply NoDup_app; [exact Hnd | repeat constructor; intros [] |].
    intros k Hk [<- | []].
    apply (cache_get_None_not_in _ _ Hc). exact Hk.
Qed.

(** X18: a model that is in the cache is not loaded again: on such a
    provider the answer does not depend on what [load_model] would do,
    and the cache stays as it is. *)
Theorem whisper_cached_model_is_not_reloaded :
  forall (exists_ : string -> bool) (imp : Import)
         (load1 load2 : string -> string + Model)
         (run : Model -> string -> string + WhisperTranscriptionProvider.Result)
         self (audio_file_path : string) (model : option string),
    WhisperTranscriptionProvider.cache_get
      (WhisperTranscriptionProvider._model_cache self)
      (PyText.or_else model "base") <> None ->
    WhisperTranscriptionProvider.transcribe
      (WhisperTranscriptionProvider.mkEngine exists_ imp load1 run)
      self audio_file_path model
    = WhisperTranscriptionProvider.transcribe
        (WhisperTranscriptionProvider.mkEngine exists_ imp load2 run)
        self audio_file_path model
    /\ snd (WhisperTranscriptionProvider.transcribe
              (WhisperTranscriptionProvider.mkEngine exists_ imp load1 run)
              self audio_file_path model) = self.
Proof.
  intros exists_ imp load1 load2 run self path model Hc.
  unfold WhisperTranscriptionProvider.transcribe.
  cbn [WhisperTranscriptionProvider.path_exists
       WhisperTranscriptionProvider.import_whisper].
  destruct (exists_ path); cbn [negb]; [|split; reflexivity].
  destruct imp; try (split; reflexivity).
  destruct (WhisperTranscriptionProvider.cache_get
              (WhisperTranscriptionProvider._model_cache self)
              (PyText.or_else model "base")) as [m|];
    [split; reflexivity | contradiction Hc; reflexivity].
Qed.

(** X19: when the file exists, the engine is installed, the model is at
    hand (cached, or loaded now) and the engine hears only whitespace,
    the provider returns the failure "Transcription failed: Transcription
    text cannot be empty": the entity constructor refused the stripped
    text and the provider turned the refusal into an envelope. *)
Theorem whisper_blank_text_fails :
  forall engine self (audio_file_path : string) (model : option string)
         (m : Model) (res : WhisperTranscriptionProvider.Result),
    WhisperTranscriptionProvider.path_exists engine audio_file_path = true ->
    WhisperTranscriptionProvider.import_whisper engine = Imported ->
    (WhisperTranscriptionProvider.cache_get
       (WhisperTranscriptionProvider._model_cache self)
       (PyText.or_else model "base") = Some m
     \/ (WhisperTranscriptionProvider.cache_get
           (WhisperTranscriptionProvider._model_cache self)
           (PyText.or_else model "base") = None
         /\ WhisperTranscriptionProvider.load_model engine
              (PyText.or_else model "base") = inr m)) ->
    WhisperTranscriptionProvider.model_transcribe engine m audio_file_path
    = inr res ->
    PyStr.all_space (WhisperTranscriptionProvider.result_text res) = true ->
    fst (WhisperTranscriptionProvider.transcribe engine self
           audio_file_path model)
    = AppResult.mk false None
        "Transcription failed: Transcription text cannot be empty"
        ["Transcription text cannot be empty"].
Proof.
  intros engine self path model m res He Hi Hm Hr Hb.
  assert (Hrun : WhisperTranscriptionProvider.run_and_wrap engine m path
                   (PyText.or_else model "base")
                 = AppResult.mk false None
                     "Transcription failed: Transcription text cannot be empty"
                     ["Transcription text cannot be empty"]).
  { unfold WhisperTranscriptionProvider.run_and_wrap. rewrite Hr.
    apply strip_empty_iff in Hb. rewrite Hb. reflexivity. }
  unfold WhisperTranscriptionProvider.transcribe. rewrite He, Hi.
  cbn [negb]. destruct Hm as [-> | [-> ->]]; cbn [fst]; exact Hrun.
Qed.

End WhisperProperties.

Lemma whisper_success_is_sound_witness :
  exists (m : string) (res : WhisperTranscriptionProvider.Result),
    WhisperTranscriptionProvider.path_exists Samples.engine
      "/path/to/audio.mp3" = true
    /\ (WhisperTranscriptionProvider.cache_get (Model:=string)
          (WhisperTranscriptionProvider._model_cache
             WhisperTranscriptionProvider.init) "base" = Some m
        \/ (WhisperTranscriptionProvider.cache_get (Model:=string)
              (WhisperTranscriptionProvider._model_cache
                 WhisperTranscriptionProvider.init) "base" = None
            /\ WhisperTranscriptionProvider.load_model Samples.engine "base"
               = inr m))
    /\ WhisperTranscriptionProvider.model_transcribe Samples.engine m
         "/path/to/audio.mp3" = inr res
    /\ AppResult.ok Samples.hello "Transcription completed successfully"
       = AppResult.ok
           (Transcription.mk
              (PyStr.strip (WhisperTranscriptionProvider.result_text res))
              "/path/to/audio.mp3" "base"
              (WhisperTranscriptionProvider.result_language res) None)
           "Transcription completed successfully"
    /\ PyStr.strip (WhisperTranscriptionProvider.result_text res) <> ""
    /\ PyStr.all_space
         (PyStr.strip (WhisperTranscriptionProvider.result_text res)) = false
    /\ WhisperTranscriptionProvider.cache_get [("base", "base")] "base"
       = Some m.
Proof.
  exact (whisper_success_is_sound Samples.engine
           WhisperTranscriptionProvider.init "/path/to/audio.mp3" None
           (AppResult.ok Samples.hello "Transcription completed successfully")
           (WhisperTranscriptionProvider.mk [("base", "base")])
           eq_refl eq_refl).
Defined.

Lemma whisper_cache_discipline_witness :
  NoDup (map fst
           (WhisperTranscriptionProvider._model_cache
              (snd (WhisperTranscriptionProvider.transcribe Samples.engine
                      (WhisperTranscriptionProvider.mk [("base", "base")])
                      "/path/to/audio.mp3" (Some "tiny"))))).
Proof.
  apply (proj2 (whisper_cache_discipline Samples.engine
                  (WhisperTranscriptionProvider.mk [("base", "base")])
                  "/path/to/audio.mp3" (Some "tiny"))).
  cbn. repeat constructor. intros [].
Defined.

Lemma whisper_cached_model_is_not_reloaded_witness :
  WhisperTranscriptionProvider.transcribe Samples.engine
    (WhisperTranscriptionProvider.mk [("base", "base")])
    "/path/to/audio.mp3" None
  = WhisperTranscriptionProvider.transcribe Samples.offline_engine
      (WhisperTranscriptionProvider.mk [("base", "base")])
      "/path/to/audio.mp3" None
  /\ snd (WhisperTranscriptionProvider.transcribe Samples.engine
            (WhisperTranscriptionProvider.mk [("base", "base")])
            "/path/to/audio.mp3" None)
     = WhisperTranscriptionProvider.mk [("base", "base")].
Proof.
  refine (whisper_cached_model_is_not_reloaded
            (fun p => String.eqb p "/path/to/audio.mp3") Imported
            (fun name => inr name) (fun _ => inl "no network")
            (fun _ _ =>
               inr (WhisperTranscriptionProvider.mkResult "  Hello world  "
                      (Some "en")))
            (WhisperTranscriptionProvider.mk [("base", "base")])
            "/path/to/audio.mp3" None _).
  cbn. discriminate.
Defined.

Lemma whisper_blank_text_fails_witness :
  fst (WhisperTranscriptionProvider.transcribe Samples.silent_engine
         WhisperTranscriptionProvider.init "/path/to/audio.mp3" (Some "small"))
  = AppResult.mk false None
      "Transcription failed: Transcription text cannot be empty"
      ["Transcription text cannot be empty"].
Proof.
  exact (whisper_blank_text_fails Samples.silent_engine
           WhisperTranscriptionProvider.init "/path/to/audio.mp3"
           (Some "small") "small"
           (WhisperTranscriptionProvider.mkResult "   " None)
           eq_refl eq_refl (or_intror (conj eq_refl eq_refl))
           eq_refl eq_refl).
Defined.

(** ** The provider under the audio processing service *)

Section WhisperUnderService.

Context {Model SP : Type} `{ISummarizationProvider SP}.

Variable engine : WhisperTranscriptionProvider.Engine Model.

(** X20: with the Whisper provider under [process_audio_file], a
    successful transcription always reaches the summarization provider
    (unless the summary is skipped): the text check of
    [generate_summary] cannot reject a text the provider let through, so
    the run makes both calls and its envelope is decided by the
    summarization provider's answer alone. *)
Theorem whisper_transcript_reaches_summarizer :
  forall (command : ProcessAudioFileCommand.t)
         (svc : AudioProcessingService.t
                  (WhisperTranscriptionProvider.t Model) SP)
         (log : list Call) (r : AppResult.t Transcription.t)
         (tp' : WhisperTranscriptionProvider.t Model),
    ProcessAudioFileCommand.validate command = [] ->
    ProcessAudioFileCommand.skip_summary command = false ->
    WhisperTranscriptionProvider.transcribe engine
      (AudioProcessingService._transcription_provider svc)
      (ProcessAudioFileCommand.audio_file_path command)
      (ProcessAudioFileCommand.model command) = (r, tp') ->
    AppResult.success r = true ->
    exists (t : Transcription.t) (rs : AppResult.t Summary.t) (sp' : SP),
      AppResult.value r = Some t
      /\ summarize (AudioProcessingService._summarization_provider svc)
           (Transcription.text t) = (rs, sp')
      /\ AudioProcessingService.process_audio_file
           (H := WhisperTranscriptionProvider.provider engine)
           command (mkRun svc log)
         = (Returned
              (if AppResult.success rs
               then AppResult.ok (Some t, AppResult.value rs)
                      "Audio processing completed successfully"
               else AppResult.fail
                      ("Summarization failed: " ++ AppResult.message rs)
                      (Some (AppResult.errors rs))),
            mkRun (AudioProcessingService.mk tp' sp')
                  (log ++ [TranscribeCall
                             (ProcessAudioFileCommand.audio_file_path command)
                             (ProcessAudioFileCommand.model command);
                           SummarizeCall (Transcription.text t)])%list).
Proof.
  intros command svc log r tp' Hv Hk Ht Hs.
  destruct (whisper_success_facts engine _ _ _ r tp' Ht Hs)
    as (t & Hr & _ & _ & _ & _ & _ & _ & Hvis & _).
  destruct (summarize (AudioProcessingService._summarization_provider svc)
              (Transcription.text t)) as [rs sp'] eqn:Hsum.
  exists t, rs, sp'. split; [rewrite Hr; reflexivity|].
  split; [exact Hsum|].
  run_service. rewrite Hv. run_service.
  unfold transcribe, WhisperTranscriptionProvider.provider.
  rewrite Ht, Hs, Hk. cbn [negb]. rewrite Hr.
  cbn [AppResult.value AppResult.ok AppResult.init getattr_text].
  run_service. rewrite (validate_visible_text _ Hvis). run_service.
  rewrite Hsum. rewrite <- app_assoc.
  destruct (AppResult.success rs); reflexivity.
Qed.

End WhisperUnderService.

Lemma whisper_transcript_reaches_summarizer_witness :
  exists (t : Transcription.t) (rs : AppResult.t Summary.t)
         (sp' : MockSummarizer),
    AppResult.value
      (AppResult.ok Samples.hello "Transcription completed successfully")
    = Some t
    /\ summarize (Mock.returning Fixtures.api_error) (Transcription.text t)
       = (rs, sp')
    /\ AudioProcessingService.process_audio_file
         (H := WhisperTranscriptionProvider.provider Samples.engine)
         Fixtures.command
         (mkRun (AudioProcessingService.mk WhisperTranscriptionProvider.init
                   (Mock.returning Fixtures.api_error)) [])
       = (Returned
            (if AppResult.success rs
             then AppResult.ok (Some t, AppResult.value rs)
                    "Audio processing completed successfully"
             else AppResult.fail
                    ("Summarization failed: " ++ AppResult.message rs)
                    (Some (AppResult.errors rs))),
          mkRun (AudioProcessingService.mk
                   (WhisperTranscriptionProvider.mk [("base", "base")]) sp')
                [TranscribeCall "/path/to/audio.mp3" (Some "base");
                 SummarizeCall (Transcription.text t)]).
Proof.
  exact (whisper_transcript_reaches_summarizer Samples.engine
           Fixtures.command
           (AudioProcessingService.mk WhisperTranscriptionProvider.init
              (Mock.returning Fixtures.api_error))
           []
           (AppResult.ok Samples.hello "Transcription completed successfully")
           (WhisperTranscriptionProvider.mk [("base", "base")])
           eq_refl eq_refl eq_refl eq_refl).
Defined.

(* ===================================================================== *)
(** * infrastructure/gemini_provider.py *)

(** ** Reading the response *)

Lemma split_from_not_nil (sep : string) (s : string) :
  forall (skip : nat) (cur : string), PyText.split_from sep skip cur s <> [].
Proof.
  induction s as [|c s IH]; intros skip cur; cbn [PyText.split_from];
    [discriminate|].
  destruct skip; [|apply IH].
  destruct (String.prefix sep (String c s)); [discriminate | apply IH].
Qed.

(** Where the separator occurs, [split] gives two pieces at least. *)
Lemma split_two_pieces (a : ascii) (sep' s : string) :
  forall cur : string,
    PyText.contains (String a sep') s = true ->
    exists p0 p1 rest,
      PyText.split_from (String a sep') 0 cur s = p0 :: p1 :: rest.
Proof.
  induction s as [|c s IH]; intros cur Hc.
  - discriminate Hc.
  - cbn [PyText.split_from]. cbn [PyText.contains] in Hc.
    destruct (String.prefix (String a sep') (String c s)) eqn:Hp.
    + destruct (PyText.split_from (String a sep')
                  (String.length (String a sep') - 1) "" s) as [|p1 rest] eqn:Hs.
      * exfalso. exact (split_from_not_nil _ _ _ _ Hs).
      * exists cur, p1, rest. reflexivity.
    + apply IH. exact Hc.
Qed.

Lemma extract_total (response_text : string) :
  exists summary_text action_items,
    GeminiSummarizationProvider.extract response_text
    = inr (summary_text, action_items).
Proof.
  unfold GeminiSummarizationProvider.extract.
  destruct (PyText.contains "SUMMARY:" response_text
            && PyText.contains "ACTION ITEMS:" response_text) eqn:Hm.
  - apply andb_true_iff in Hm as [_ Ha].
    unfold PyText.split.
    destruct (split_two_pieces _ _ _ "" Ha) as (p0 & p1 & rest & ->).
    eexists _, _. reflexivity.
  - eexists _, _. reflexivity.
Qed.

Lemma collect_items_clean (lines : list string) :
  forall action_items : list string,
    Forall clean_item_facts action_items ->
    Forall clean_item_facts
      (GeminiSummarizationProvider.collect_items lines action_items).
Proof.
  induction lines as [|line rest IH]; intros acc Hacc;
    cbn [GeminiSummarizationProvider.collect_items]; [exact Hacc|].
  destruct (PyText.startswith "-" (PyStr.strip line)
            || PyText.startswith "*" (PyStr.strip line)); [|apply IH; exact Hacc].
  destruct (PyStr.truthy (PyStr.strip (PyText.from_1 (PyStr.strip line)))
            && negb (PyText.lower
                       (PyStr.strip (PyText.from_1 (PyStr.strip line)))
                     =? "none identified")%string) eqn:Hk;
    [|apply IH; exact Hacc].
  apply IH. unfold Py.append. apply Forall_app. split; [exact Hacc|].
  constructor; [|constructor].
  apply andb_true_iff in Hk as [Ht Hn].
  repeat split.
  - apply truthy_true_iff. exact Ht.
  - apply strip_idempotent.
  - apply negb_true_iff in Hn. apply String.eqb_neq. exact Hn.
Qed.

(** The loop of [summarize] over the lines is a filter followed by a
    map: it keeps the lines that, stripped, start with "-" or "*" and
    whose remainder, stripped, is neither empty nor "none identified" in
    any letter case, and turns each into that remainder. *)
Lemma collect_items_as_filter_map (lines : list string) :
  forall action_items : list string,
    GeminiSummarizationProvider.collect_items lines action_items
    = (action_items
       ++ map (fun line => PyStr.strip (PyText.from_1 (PyStr.strip line)))
            (filter
               (fun line =>
                  (PyText.startswith "-" (PyStr.strip line)
                   || PyText.startswith "*" (PyStr.strip line))
                  && (PyStr.truthy
                        (PyStr.strip (PyText.from_1 (PyStr.strip line)))
                      && negb (PyText.lower
                                 (PyStr.strip
                                    (PyText.from_1 (PyStr.strip line)))
                               =? "none identified")%string))
               lines))%list.
Proof.
  induction lines as [|line rest IH]; intros acc;
    cbn [GeminiSummarizationProvider.collect_items filter map].
  - rewrite app_nil_r. reflexivity.
  - destruct (PyText.startswith "-" (PyStr.strip line)
              || PyText.startswith "*" (PyStr.strip line));
      cbn [andb]; [|apply IH].
    destruct (PyStr.truthy (PyStr.strip (PyText.from_1 (PyStr.strip line)))
              && negb (PyText.lower
                         (PyStr.strip (PyText.from_1 (PyStr.strip line)))
                       =? "none identified")%string);
      [|apply IH].
    rewrite IH. unfold Py.append. cbn [map]. rewrite <- app_assoc.
    reflexivity.
Qed.

(** [extract], branch by branch, in terms of the response text alone. *)
Lemma extract_origin (response_text summary_text : string)
    (action_items : list string) :
  GeminiSummarizationProvider.extract response_text
  = inr (summary_text, action_items) ->
  (PyText.contains "SUMMARY:" response_text
   && PyText.contains "ACTION ITEMS:" response_text = false
   /\ summary_text = response_text /\ action_items = [])
  \/ (PyText.contains "SUMMARY:" response_text
      && PyText.contains "ACTION ITEMS:" response_text = true
      /\ exists part0 part1 rest,
           PyText.split "ACTION ITEMS:" response_text = part0 :: part1 :: rest
           /\ summary_text = PyStr.strip (PyText.replace "SUMMARY:" "" part0)
           /\ action_items
              = map (fun line => PyStr.strip (PyText.from_1 (PyStr.strip line)))
                  (filter
                     (fun line =>
                        (PyText.startswith "-" (PyStr.strip line)
                         || PyText.startswith "*" (PyStr.strip line))
                        && (PyStr.truthy
                              (PyStr.strip (PyText.from_1 (PyStr.strip line)))
                            && negb (PyText.lower
                                       (PyStr.strip
                                          (PyText.from_1 (PyStr.strip line)))
                                     =? "none identified")%string))
                     (PyText.split Py.nl (PyStr.strip part1)))).
Proof.
  unfold GeminiSummarizationProvider.extract.
  destruct (PyText.contains "SUMMARY:" response_text
            && PyText.contains "ACTION ITEMS:" response_text).
  - destruct (PyText.split "ACTION ITEMS:" response_text)
      as [|p0 [|p1 rest]]; try discriminate.
    intros [= <- <-]. right. split; [reflexivity|].
    exists p0, p1, rest. split; [reflexivity|]. split; [reflexivity|].
    rewrite collect_items_as_filter_map. reflexivity.
  - intros [= <- <-]. left. repeat split.
Qed.

Lemma extract_facts (response_text summary_text : string)
    (action_items : list string) :
  GeminiSummarizationProvider.extract response_text
  = inr (summary_text, action_items) ->
  Forall clean_item_facts action_items
  /\ (PyStr.strip summary_text = summary_text
      \/ summary_text = response_text).
Proof.
  unfold GeminiSummarizationProvider.extract.
  destruct (PyText.contains "SUMMARY:" response_text
            && PyText.contains "ACTION ITEMS:" response_text).
  - destruct (PyText.split "ACTION ITEMS:" response_text)
      as [|p0 [|p1 rest]]; try discriminate.
    intros [= <- <-]. split.
    + apply collect_items_clean. constructor.
    + left. apply strip_idempotent.
  - intros [= <- <-]. split; [constructor | right; reflexivity].
Qed.

(** ** The provider *)

Section GeminiProperties.

Context {Client : Type}.

Implicit Types (api : GeminiSummarizationProvider.Api Client)
               (self : GeminiSummarizationProvider.t Client).

(** How [_initialize_model] can end: an escaping exception, a failed
    envelope, both with the provider as it was; or the value-less success
    with a client in place, the old one or one just made. *)
Lemma initialize_model_cases {T : Type} api self
    (x : string + AppResult.t T) self' :
  GeminiSummarizationProvider._initialize_model api self = (x, self') ->
  (self' = self
   /\ ((exists e, x = inl e
                  /\ GeminiSummarizationProvider.import_genai api
                     = ImportRaised e)
       \/ x = inr (AppResult.fail
                     "Gemini API key not provided. Set GEMINI_API_KEY environment variable or pass api_key parameter"
                     (Some ["Missing API key"]))
       \/ x = inr (AppResult.fail
                     "Google GenAI library is not installed. Please install with: pip install google-genai"
                     (Some ["Missing dependency: google-genai"]))
       \/ (exists e,
             GeminiSummarizationProvider.make_client api
               (format_field (GeminiSummarizationProvider._api_key self))
             = inl e
             /\ x = inr (AppResult.fail
                           ("Failed to initialize Gemini client: " ++ e)
                           (Some [e])))))
  \/ (x = inr GeminiSummarizationProvider.ok_none
      /\ GeminiSummarizationProvider._api_key self'
         = GeminiSummarizationProvider._api_key self
      /\ exists c,
           GeminiSummarizationProvider._client self' = Some c
           /\ (GeminiSummarizationProvider._client self = Some c
               /\ self' = self
               \/ GeminiSummarizationProvider._client self = None)).
Proof.
  unfold GeminiSummarizationProvider._initialize_model.
  destruct (GeminiSummarizationProvider._client self) as [c|] eqn:Hc.
  - intros [= <- <-]. right. split; [reflexivity|]. split; [reflexivity|].
    exists c. split; [exact Hc|]. left. split; reflexivity.
  - destruct (Py.opt_truthy (GeminiSummarizationProvider._api_key self));
      cbn [negb].
    2:{ intros [= <- <-]. left. split; [reflexivity|]. right. left.
        reflexivity. }
    destruct (GeminiSummarizationProvider.import_genai api) eqn:Hi.
    + destruct (GeminiSummarizationProvider.make_client api _) as [e|c] eqn:Hm.
      * intros [= <- <-]. left. split; [reflexivity|]. right. right. right.
        exists e. split; reflexivity.
      * intros [= <- <-]. right. split; [reflexivity|].
        split; [reflexivity|]. exists c. split; [reflexivity|].
        right. reflexivity.
    + intros [= <- <-]. left. split; [reflexivity|]. right. right. left.
      reflexivity.
    + intros [= <- <-]. left. split; [reflexivity|]. left.
      exists msg. split; reflexivity.
Qed.

(** What a successful envelope of [summarize] tells; shared below. *)
Lemma gemini_success_facts api self (text : string)
    (r : AppResult.t Summary.t) self' :
  GeminiSummarizationProvider.summarize api self text = (r, self') ->
  AppResult.success r = true ->
  exists (c : Client) (raw summary_text : string) (action_items : list string),
    GeminiSummarizationProvider._client self' = Some c
    /\ GeminiSummarizationProvider.generate_content api c
         "gemini-2.0-flash-exp" (GeminiSummarizationProvider.prompt text)
       = inr (Some (Some raw))
    /\ GeminiSummarizationProvider.extract (PyStr.strip raw)
       = inr (summary_text, action_items)
    /\ summary_text <> ""
    /\ r = AppResult.ok (Summary.mk summary_text action_items)
             "Summary generated successfully".
Proof.
  unfold GeminiSummarizationProvider.summarize,
    GeminiSummarizationProvider.summarization_failed.
  destruct (GeminiSummarizationProvider._initialize_model api self)
    as [x s1] eqn:Hi.
  destruct (initialize_model_cases api self x s1 Hi)
    as [(-> & [(e & -> & _) | [-> | [-> | (e & _ & ->)]]])
       | (-> & _ & c & Hc & _)].
  - intros [= <- _] Hs. discriminate Hs.
  - cbn [AppResult.success AppResult.fail AppResult.init negb].
    intros [= <- _] Hs. discriminate Hs.
  - cbn [AppResult.success AppResult.fail AppResult.init negb].
    intros [= <- _] Hs. discriminate Hs.
  - cbn [AppResult.success AppResult.fail AppResult.init negb].
    intros [= <- _] Hs. discriminate Hs.
  - cbn [AppResult.success GeminiSummarizationProvider.ok_none AppResult.ok_of
         AppResult.init negb].
    unfold GeminiSummarizationProvider.call_generate_content. rewrite Hc.
    destruct (GeminiSummarizationProvider.generate_content api c _ _)
      as [e | [[raw|]|]] eqn:Hg;
      try (intros [= <- _] Hs; discriminate Hs).
    destruct (PyStr.truthy raw); cbn [negb];
      [|intros [= <- _] Hs; discriminate Hs].
    destruct (GeminiSummarizationProvider.extract (PyStr.strip raw))
      as [e | [st items]] eqn:He; [intros [= <- _] Hs; discriminate Hs|].
    destruct (PyStr.truthy st) eqn:Hst; cbn [negb];
      [|intros [= <- _] Hs; discriminate Hs].
    unfold Summary.init. rewrite Hst. cbn [negb].
    intros [= <- <-] _. exists c, raw, st, items.
    repeat split; try assumption.
    apply truthy_true_iff. exact Hst.
Qed.

(** X21: whatever the world does, the envelope [summarize] returns
    satisfies the envelope invariant; in particular the value-less
    success that [_initialize_model] produces never leaves the
    provider. *)
Theorem gemini_envelope_is_well_formed :
  forall api self (text : string),
    AppResult.invariant
      (fst (GeminiSummarizationProvider.summarize api self text))
    /\ ~ AppResult.invariant
           (GeminiSummarizationProvider.ok_none (T:=Summary.t)).
Proof.
  intros api self text. split.
  2:{ intros [Hs _]. destruct (Hs eq_refl) as [Hv _]. apply Hv. reflexivity. }
  unfold GeminiSummarizationProvider.summarize,
    GeminiSummarizationProvider.summarization_failed.
  destruct (GeminiSummarizationProvider._initialize_model api self)
    as [x s1] eqn:Hi.
  destruct (initialize_model_cases api self x s1 Hi)
    as [(-> & [(e & -> & _) | [-> | [-> | (e & _ & ->)]]])
       | (-> & _ & c & Hc & _)].
  - apply fail_is_well_formed.
  - apply fail_is_well_formed.
  - apply fail_is_well_formed.
  - apply fail_is_well_formed.
  - cbn [AppResult.success GeminiSummarizationProvider.ok_none AppResult.ok_of
         AppResult.init negb].
    destruct (GeminiSummarizationProvider.call_generate_content api s1 _)
      as [e | [[raw|]|]]; cbn [fst]; try apply fail_is_well_formed.
    destruct (PyStr.truthy raw); cbn [negb fst];
      [|apply fail_is_well_formed].
    destruct (GeminiSummarizationProvider.extract (PyStr.strip raw))
      as [e | [st items]]; cbn [fst]; [apply fail_is_well_formed|].
    destruct (PyStr.truthy st); cbn [negb fst]; [|apply fail_is_well_formed].
    destruct (Summary.init st (Some items)); cbn [fst];
      [apply ok_is_well_formed | apply fail_is_well_formed].
Qed.

(** X22: a successful envelope of [summarize] holds the Summary read
    from the text [raw] that the API answered to the prompt for this
    text.  With [raw] stripped: if it lacks "SUMMARY:" or "ACTION
    ITEMS:", the summary is that text whole, with no action items;
    otherwise the summary is what precedes the first "ACTION ITEMS:",
    with every "SUMMARY:" removed, stripped, and the action items are
    read, in order, from the lines of what lies between the first and
    the second "ACTION ITEMS:" (stripped): the lines that, stripped,
    start with "-" or "*" and whose remainder, stripped, is neither empty
    nor "none identified" in any letter case, each giving that remainder.
    The summary text is not empty and has no whitespace at either end,
    every action item is clean in the same way, and the provider holds a
    client afterwards. *)
Theorem gemini_success_is_sound :
  forall api self (text : string) (r : AppResult.t Summary.t) self',
    GeminiSummarizationProvider.summarize api self text = (r, self') ->
    AppResult.success r = true ->
    exists (s : Summary.t) (c : Client) (raw : string),
      r = AppResult.ok s "Summary generated successfully"
      /\ GeminiSummarizationProvider._client self' = Some c
      /\ GeminiSummarizationProvider.generate_content api c
           "gemini-2.0-flash-exp" (GeminiSummarizationProvider.prompt text)
         = inr (Some (Some raw))
      /\ ((PyText.contains "SUMMARY:" (PyStr.strip raw)
           && PyText.contains "ACTION ITEMS:" (PyStr.strip raw) = false
           /\ s = Summary.mk (PyStr.strip raw) [])
          \/ (PyText.contains "SUMMARY:" (PyStr.strip raw)
              && PyText.contains "ACTION ITEMS:" (PyStr.strip raw) = true
              /\ exists part0 part1 rest,
                   PyText.split "ACTION ITEMS:" (PyStr.strip raw)
                   = part0 :: part1 :: rest
                   /\ s = Summary.mk
                           (PyStr.strip (PyText.replace "SUMMARY:" "" part0))
                           (map (fun line =>
                                   PyStr.strip
                                     (PyText.from_1 (PyStr.strip line)))
                              (filter
                                 (fun line =>
                                    (PyText.startswith "-" (PyStr.strip line)
                                     || PyText.startswith "*"
                                          (PyStr.strip line))
                                    && (PyStr.truthy
                                          (PyStr.strip
                                             (PyText.from_1
                                                (PyStr.strip line)))
                                        && negb
                                             (PyText.lower
                                                (PyStr.strip
                                                   (PyText.from_1
                                                      (PyStr.strip line)))
                                              =? "none identified")%string))
                                 (PyText.split Py.nl (PyStr.strip part1))))))
      /\ Summary.conversation_summary s <> ""
      /\ PyStr.strip (Summary.conversation_summary s)
         = Summary.conversation_summary s
      /\ Forall clean_item_facts (Summary.action_items s).
Proof.
  intros api self text r self' Hrun Hs.
  destruct (gemini_success_facts api self text r self' Hrun Hs)
    as (c & raw & st & items & Hc & Hg & He & Hne & ->).
  destruct (extract_facts _ _ _ He) as [Hitems Hst].
  exists (Summary.mk st items), c, raw.
  split; [reflexivity|]. split; [exact Hc|]. split; [exact Hg|].
  split.
  - destruct (extract_origin _ _ _ He)
      as [(Hm & -> & ->) | (Hm & p0 & p1 & rest & Hsp & -> & ->)].
    + left. split; [exact Hm | reflexivity].
    + right. split; [exact Hm|]. exists p0, p1, rest.
      split; [exact Hsp | reflexivity].
  - cbn [Summary.conversation_summary Summary.action_items].
    split; [exact Hne|]. split; [|exact Hitems].
    destruct Hst as [Hst | ->]; [exact Hst | apply strip_idempotent].
Qed.

(** X23: without a key, from the argument or from the environment, the
    provider built by [__init__] answers every text with the failure
    "Gemini API key not provided..." and the error "Missing API key",
    stays as it was, and this whatever the API would do: nothing of it is
    used. *)
Theorem gemini_missing_key :
  forall api (api_key getenv : option string) (text : string),
    Py.opt_truthy api_key = false ->
    Py.opt_truthy getenv = false ->
    GeminiSummarizationProvider.summarize api
      (GeminiSummarizationProvider.init api_key getenv) text
    = (AppResult.mk false None
         "Gemini API key not provided. Set GEMINI_API_KEY environment variable or pass api_key parameter"
         ["Missing API key"],
       GeminiSummarizationProvider.init api_key getenv).
Proof.
  intros api api_key getenv text Hk He.
  unfold GeminiSummarizationProvider.summarize,
    GeminiSummarizationProvider._initialize_model,
    GeminiSummarizationProvider.init.
  rewrite Hk.
  cbn [GeminiSummarizationProvider._client GeminiSummarizationProvider._api_key].
  rewrite He. reflexivity.
Qed.

(** X24: a response that lacks one of the two markers is taken whole:
    when the provider has a client and the API answers the prompt with a
    text that has a visible character and, once stripped, does not
    contain both "SUMMARY:" and "ACTION ITEMS:", the envelope is a
    success whose summary is the stripped text, with no action items. *)
Theorem gemini_free_form_response :
  forall api self (text : string) (c : Client) (raw : string),
    GeminiSummarizationProvider._client self = Some c ->
    GeminiSummarizationProvider.generate_content api c
      "gemini-2.0-flash-exp" (GeminiSummarizationProvider.prompt text)
    = inr (Some (Some raw)) ->
    PyStr.all_space raw = false ->
    PyText.contains "SUMMARY:" (PyStr.strip raw)
    && PyText.contains "ACTION ITEMS:" (PyStr.strip raw) = false ->
    GeminiSummarizationProvider.summarize api self text
    = (AppResult.ok (Summary.mk (PyStr.strip raw) [])
         "Summary generated successfully",
       self).
Proof.
  intros api self text c raw Hc Hg Hvis Hm.
  unfold GeminiSummarizationProvider.summarize,
    GeminiSummarizationProvider._initialize_model,
    GeminiSummarizationProvider.call_generate_content.
  rewrite Hc.
  cbn [AppResult.success GeminiSummarizationProvider.ok_none AppResult.ok_of
       AppResult.init negb].
  rewrite Hc, Hg.
  destruct raw as [|a raw]; [discriminate Hvis|]. cbn [PyStr.truthy negb].
  unfold GeminiSummarizationProvider.extract. rewrite Hm.
  destruct (PyStr.strip (String a raw)) as [|b st] eqn:Hs.
  - apply strip_empty_iff in Hs. congruence.
  - reflexivity.
Qed.

(** X25: the client is made once: on a provider that holds a client the
    answer does not depend on the key, on the import or on what making a
    client would do, and the provider stays as it was. *)
Theorem gemini_client_is_made_once :
  forall (imp1 imp2 : Import) (make1 make2 : string -> string + Client)
         (gen : Client -> string -> string
                -> string + option (option string))
         (key1 key2 : option string) (c : Client) (text : string),
    fst (GeminiSummarizationProvider.summarize
           (GeminiSummarizationProvider.mkApi imp1 make1 gen)
           (GeminiSummarizationProvider.mk key1 (Some c)) text)
    = fst (GeminiSummarizationProvider.summarize
             (GeminiSummarizationProvider.mkApi imp2 make2 gen)
             (GeminiSummarizationProvider.mk key2 (Some c)) text)
    /\ snd (GeminiSummarizationProvider.summarize
              (GeminiSummarizationProvider.mkApi imp1 make1 gen)
              (GeminiSummarizationProvider.mk key1 (Some c)) text)
       = GeminiSummarizationProvider.mk key1 (Some c).
Proof.
  intros imp1 imp2 make1 make2 gen key1 key2 c text.
  unfold GeminiSummarizationProvider.summarize,
    GeminiSummarizationProvider._initialize_model,
    GeminiSummarizationProvider.call_generate_content.
  cbn [GeminiSummarizationProvider._client
       GeminiSummarizationProvider.generate_content
       AppResult.success GeminiSummarizationProvider.ok_none AppResult.ok_of
       AppResult.init negb].
  destruct (gen c "gemini-2.0-flash-exp"
              (GeminiSummarizationProvider.prompt text))
    as [e | [[raw|]|]]; try (split; reflexivity).
  destruct (PyStr.truthy raw); cbn [negb]; [|split; reflexivity].
  destruct (GeminiSummarizationProvider.extract (PyStr.strip raw))
    as [e | [st items]]; [split; reflexivity|].
  destruct (PyStr.truthy st); cbn [negb]; [|split; reflexivity].
  destruct (Summary.init st (Some items)); split; reflexivity.
Qed.

(** X26: the failures of [summarize] are six and no more: the missing
    key, the missing library, a client that cannot be made, an exception
    of the import or of the API call (reported as "Summarization failed:"
    with the exception's text as the one error), an empty response, and a
    response with no summary in it.  It never fails for a missing client
    or a missing piece of the response. *)
Theorem gemini_failure_messages :
  forall api self (text : string) (r : AppResult.t Summary.t) self',
    GeminiSummarizationProvider.summarize api self text = (r, self') ->
    AppResult.success r = false ->
    AppResult.value r = None
    /\ (AppResult.message r
        = "Gemini API key not provided. Set GEMINI_API_KEY environment variable or pass api_key parameter"
        \/ AppResult.message r
           = "Google GenAI library is not installed. Please install with: pip install google-genai"
        \/ (exists e,
              GeminiSummarizationProvider.make_client api
                (format_field (GeminiSummarizationProvider._api_key self))
              = inl e
              /\ AppResult.message r
                 = "Failed to initialize Gemini client: " ++ e
              /\ AppResult.errors r = [e])
        \/ (exists e,
              (GeminiSummarizationProvider.import_genai api = ImportRaised e
               \/ exists c,
                    GeminiSummarizationProvider.generate_content api c
                      "gemini-2.0-flash-exp"
                      (GeminiSummarizationProvider.prompt text) = inl e)
              /\ AppResult.message r = "Summarization failed: " ++ e
              /\ AppResult.errors r = [e])
        \/ (AppResult.message r = "Gemini API returned empty response"
            /\ AppResult.errors r = [])
        \/ (AppResult.message r
            = "Failed to extract summary from Gemini response"
            /\ AppResult.errors r = [])).
Proof.
  intros api self text r self'.
  unfold GeminiSummarizationProvider.summarize,
    GeminiSummarizationProvider.summarization_failed.
  destruct (GeminiSummarizationProvider._initialize_model api self)
    as [x s1] eqn:Hi.
  destruct (initialize_model_cases api self x s1 Hi)
    as [(-> & [(e & -> & Himp) | [-> | [-> | (e & Hmk & ->)]]])
       | (-> & _ & c & Hc & _)].
  - intros [= <- _] _. split; [reflexivity|]. right. right. right. left.
    exists e. split; [left; exact Himp|]. split; reflexivity.
  - cbn [AppResult.success AppResult.fail AppResult.init negb].
    intros [= <- _] _. split; [reflexivity|]. left. reflexivity.
  - cbn [AppResult.success AppResult.fail AppResult.init negb].
    intros [= <- _] _. split; [reflexivity|]. right. left. reflexivity.
  - cbn [AppResult.success AppResult.fail AppResult.init negb].
    intros [= <- _] _. split; [reflexivity|]. right. right. left.
    exists e. split; [exact Hmk|]. split; reflexivity.
  - cbn [AppResult.success GeminiSummarizationProvider.ok_none AppResult.ok_of
         AppResult.init negb].
    unfold GeminiSummarizationProvider.call_generate_content. rewrite Hc.
    destruct (GeminiSummarizationProvider.generate_content api c _ _)
      as [e | [[raw|]|]] eqn:Hg.
    + intros [= <- _] _. split; [reflexivity|]. right. right. right. left.
      exists e. split; [right; exists c; exact Hg|]. split; reflexivity.
    + destruct (PyStr.truthy raw); cbn [negb].
      2:{ intros [= <- _] _. split; [reflexivity|].
          right. right. right. right. left. split; reflexivity. }
      destruct (extract_total (PyStr.strip raw)) as (st & items & ->).
      destruct (PyStr.truthy st) eqn:Hst; cbn [negb].
      2:{ intros [= <- _] _. split; [reflexivity|].
          right. right. right. right. right. split; reflexivity. }
      unfold Summary.init. rewrite Hst. cbn [negb].
      intros [= <- _] Hs. discriminate Hs.
    + intros [= <- _] _. split; [reflexivity|].
      right. right. right. right. left. split; reflexivity.
    + intros [= <- _] _. split; [reflexivity|].
      right. right. right. right. left. split; reflexivity.
Qed.

End GeminiProperties.

Lemma gemini_success_is_sound_witness :
  exists (s : Summary.t) (c : unit) (raw : string),
    AppResult.ok (Summary.mk "The team met." ["Send report"; "Call Bob"])
      "Summary generated successfully"
    = AppResult.ok s "Summary generated successfully"
    /\ Some tt = Some c
    /\ inr (Some (Some Samples.response)) = inr (Some (Some raw))
                                            :> string + option (option string).
Proof.
  destruct (gemini_success_is_sound Samples.api
              (GeminiSummarizationProvider.init (Some "key") None) "text"
              (AppResult.ok
                 (Summary.mk "The team met." ["Send report"; "Call Bob"])
                 "Summary generated successfully")
              (GeminiSummarizationProvider.mk (Some "key") (Some tt))
              eq_refl eq_refl)
    as (s & c & raw & Hr & Hc & Hg & _).
  exists s, c, raw. split; [exact Hr|]. split; [exact Hc | exact Hg].
Defined.

Lemma gemini_missing_key_witness :
  GeminiSummarizationProvider.summarize Samples.api
    (GeminiSummarizationProvider.init (Some "") None) "text"
  = (AppResult.mk false None
       "Gemini API key not provided. Set GEMINI_API_KEY environment variable or pass api_key parameter"
       ["Missing API key"],
     GeminiSummarizationProvider.init (Some "") None).
Proof.
  exact (gemini_missing_key Samples.api (Some "") None "text"
           eq_refl eq_refl).
Defined.

Lemma gemini_free_form_response_witness :
  GeminiSummarizationProvider.summarize Samples.prose_api
    (GeminiSummarizationProvider.mk (Some "key") (Some tt)) "text"
  = (AppResult.ok (Summary.mk "They talked about the launch." [])
       "Summary generated successfully",
     GeminiSummarizationProvider.mk (Some "key") (Some tt)).
Proof.
  exact (gemini_free_form_response Samples.prose_api
           (GeminiSummarizationProvider.mk (Some "key") (Some tt)) "text"
           tt "  They talked about the launch.  "
           eq_refl eq_refl eq_refl eq_refl).
Defined.

Lemma gemini_failure_messages_witness :
  AppResult.value
    (AppResult.fail (T:=Summary.t)
       "Google GenAI library is not installed. Please install with: pip install google-genai"
       (Some ["Missing dependency: google-genai"])) = None.
Proof.
  exact (proj1 (gemini_failure_messages Samples.dead_api
                  (GeminiSummarizationProvider.init None (Some "k")) "text"
                  (AppResult.fail
                     "Google GenAI library is not installed. Please install with: pip install google-genai"
                     (Some ["Missing dependency: google-genai"]))
                  (GeminiSummarizationProvider.init None (Some "k"))
                  eq_refl eq_refl)).
Defined.

(* ===================================================================== *)
(** * transcriber.py: the two providers under the service *)

Section Pipeline.

Context {Model Client : Type}.

Variable engine : WhisperTranscriptionProvider.Engine Model.
Variable api : GeminiSummarizationProvider.Api Client.


End Pipeline.

